(** * Docker app store backend: the registry client and the catalogue aggregator

    A shallow embedding of [AppLocation] (domain/valueObjects),
    [DockerRegistryClient] (infrastructure/registry), [AppRepository.findAll]
    (infrastructure/repositories), [AppService.getAllApps]
    (application/services) and [getAllAppsController]
    (interfaces/http/controllers), followed by the properties of the
    specification that concern them.

    Conventions.
    - A JavaScript string is a [string]: a sequence of code units, here those
      below 256.
    - A value that may be [undefined] or [null] is an [option]; [truthy] is
      JavaScript's truthiness on such an optional string.
    - An [async] function is a computation in the monad [M]: it reads the
      answers of the upstream services, records every HTTP request it sends
      in a log, and ends with a value, with a thrown error, or never. *)

From Stdlib Require Import Ascii String.
From stdpp Require Import base option list strings gmap.

(** ** JavaScript values *)

(** Truthiness of a string that may be undefined: [undefined] and the empty
    string are falsy. [truthy x] is the string of a truthy [x]. *)
Definition truthy (x : option string) : option string :=
  match x with
  | Some s => if String.eqb s "" then None else Some s
  | None => None
  end.

(** [x || y] *)
Definition js_or (x : option string) (y : string) : string :=
  match truthy x with
  | Some s => s
  | None => y
  end.

(** [xs.join(sep)] *)
Fixpoint join (sep : string) (xs : list string) : string :=
  match xs with
  | [] => ""
  | [x] => x
  | x :: rest => x +:+ sep +:+ join sep rest
  end.

(** [xs.includes(x)] *)
Definition includes (x : string) (xs : list string) : bool :=
  existsb (String.eqb x) xs.

(** The white space that [String.prototype.trim] strips, among the code
    units below 256: TAB, LF, VT, FF, CR, SP and NBSP. *)
Definition is_white_space (c : ascii) : bool :=
  let n := nat_of_ascii c in
  ((9 <=? n) && (n <=? 13) || (n =? 32) || (n =? 160))%nat.

Fixpoint drop_white_space (s : string) : string :=
  match s with
  | String c rest => if is_white_space c then drop_white_space rest else s
  | EmptyString => EmptyString
  end.

(** [s.trim()]: white space dropped at both ends. *)
Definition trim (s : string) : string :=
  String.rev (drop_white_space (String.rev (drop_white_space s))).

(** ** Errors, outcomes and the monad of asynchronous code *)

(** A thrown value: an axios error carries [error.response?.status] when the
    server answered; [new Error(msg)] carries none. *)
Record JsError := mkError {
  response_status : option nat;
  message : string
}.

Definition Error (msg : string) : JsError := mkError None msg.

(** An HTTP request as the client builds it for [axios.get]. *)
Record Request := mkRequest {
  url : string;
  headers : list (string * string)
}.

Definition Log := list Request.

(** What a promise settles to; [Diverge] stands for a computation that is
    still running when its fuel is spent. *)
Inductive Outcome (A : Type) : Type :=
| Ok (a : A)
| Throw (e : JsError)
| Diverge.
Arguments Ok {A} a.
Arguments Throw {A} e.
Arguments Diverge {A}.

Definition M (A : Type) : Type := Log -> Outcome A * Log.

Definition ret {A} (a : A) : M A := fun log => (Ok a, log).

Definition throw {A} (e : JsError) : M A := fun log => (Throw e, log).

Definition diverge {A} : M A := fun log => (Diverge, log).

Definition bind {A B} (m : M A) (k : A -> M B) : M B :=
  fun log =>
    match m log with
    | (Ok a, log') => k a log'
    | (Throw e, log') => (Throw e, log')
    | (Diverge, log') => (Diverge, log')
    end.

(** [try { m } catch (error) { handler error }] *)
Definition try_catch {A} (m : M A) (handler : JsError -> M A) : M A :=
  fun log =>
    match m log with
    | (Throw e, log') => handler e log'
    | settled => settled
    end.

Declare Scope async_scope.
Delimit Scope async_scope with async.
Notation "'let*' x ':=' m 'in' k" := (bind m (fun x => k))
  (at level 10, x name, m at level 100, k at level 200,
   format "'[v' 'let*'  x  ':='  m  'in' '/' k ']'") : async_scope.
Open Scope async_scope.

(** [Promise.all(ps)]: every branch runs on its own from the point of the
    fork (a branch sees the requests made before the fork and its own, not
    those of its siblings); the results keep the order of [ps], a rejected
    branch rejects the whole, and the log gathers the requests of the
    branches in that order. *)
Fixpoint gather {A} (fork : Log) (ps : list (M A)) : Outcome (list A) * Log :=
  match ps with
  | [] => (Ok [], [])
  | p :: rest =>
      let '(r, log_p) := p fork in
      let sent := drop (length fork) log_p in
      let '(rs, sent_rest) := gather fork rest in
      (match r, rs with
       | Ok a, Ok l => Ok (a :: l)
       | Ok _, Throw e => Throw e
       | Ok _, Diverge => Diverge
       | Throw e, _ => Throw e
       | Diverge, _ => Diverge
       end, sent ++ sent_rest)
  end.

Definition Promise_all {A} (ps : list (M A)) : M (list A) :=
  fun fork => let '(r, sent) := gather fork ps in (r, fork ++ sent).

(** ** domain/valueObjects/AppLocation and domain/models/App *)

(** [!location || location.trim().length === 0]; [!location] on a string
    holds of the empty one. *)
Definition blank (location : string) : bool :=
  String.eqb location "" || (String.length (trim location) =? 0)%nat.

Module AppLocation.
Record t := mk { value : string }.

(** [AppLocation.create], that is the private constructor. *)
Definition create (location : string) : M t :=
  if blank location
  then throw (Error "App location cannot be empty.")
  else ret (mk location).
End AppLocation.

Record App := mkApp {
  name : string;
  location : AppLocation.t;
  description : string;
  pictureUrl : string
}.

(** ** The upstream services *)

(** The JSON documents of the endpoints, with the fields the client reads.
    [{ name }], an item of a listing: *)
Record Named := mkNamed { entry_name : string }.

(** Catalogue listing: [{ results: [{ name }], next: URL | null }]. *)
Record CatalogPage := mkPage {
  results : list Named;
  next : option string
}.

(** Tag listing: [{ results: [{ name }] }]. *)
Record TagsPage := mkTags { tag_results : list Named }.

(** Repository summary. *)
Record RepositoryData := mkData {
  data_name : option string;
  data_description : option string;
  data_star_count : option nat;
  data_pull_count : option nat;
  data_last_updated : option string;
  data_is_private : option bool
}.

(** Token endpoint: [{ token }]. *)
Record TokenData := mkToken { token : option string }.

(** A manifest refers to its config blob by [config.digest]. *)
Record ManifestConfig := mkManifestConfig { digest : option string }.
Record Manifest := mkManifest { manifest_config : option ManifestConfig }.

(** A config blob carries the labels in [config.Labels]. *)
Record ImageConfig := mkImageConfig { Labels : option (gmap string string) }.
Record ConfigBlob := mkBlob { blob_config : option ImageConfig }.

(** [axios.get] resolves with a response or rejects with an error. *)
Inductive Response (A : Type) : Type :=
| Answer (data : A)
| Failure (error : JsError).
Arguments Answer {A} data.
Arguments Failure {A} error.

(** The services behind the six endpoints. An answer may depend on the
    request and on the requests seen before it. The body of a manifest or
    of a blob is [None] when it is empty ([null], a falsy value). *)
Record Upstream := mkUpstream {
  hub_repositories : Log -> Request -> Response CatalogPage;
  hub_repository : Log -> Request -> Response RepositoryData;
  hub_tags : Log -> Request -> Response TagsPage;
  auth_token : Log -> Request -> Response TokenData;
  registry_manifests : Log -> Request -> Response (option Manifest);
  registry_blobs : Log -> Request -> Response (option ConfigBlob)
}.

(** [await axios.get(url, { headers })], [response.data] in hand. *)
Definition axios_get {A} (service : Log -> Request -> Response A)
    (request : Request) : M A :=
  fun log =>
    match service log request with
    | Answer data => (Ok data, log ++ [request])
    | Failure error => (Throw error, log ++ [request])
    end.

(** [await axios.get(url)], [response.status] in hand;
    [answered_status log request] is the status of the answer, one that
    axios accepts. *)
Definition axios_get_status {A} (service : Log -> Request -> Response A)
    (answered_status : Log -> Request -> nat) (request : Request) : M nat :=
  fun log =>
    match service log request with
    | Answer _ => (Ok (answered_status log request), log ++ [request])
    | Failure error => (Throw error, log ++ [request])
    end.

(** [error.response?.status === code] *)
Definition status_is (error : JsError) (code : nat) : bool :=
  match response_status error with
  | Some s => (s =? code)%nat
  | None => false
  end.

(** ** infrastructure/registry/dockerRegistryClient *)

Definition DOCKER_HUB_NAMESPACE : string := "abdelrahmanelbadawy1".

Definition REGISTRY_API_BASE_URL : string := "https://registry-1.docker.io/v2".

(** The [Accept] header of both manifest requests. *)
Definition MANIFEST_ACCEPT : string :=
  "application/vnd.docker.distribution.manifest.v2+json, application/vnd.docker.distribution.manifest.list.v2+json, application/vnd.oci.image.manifest.v1+json".

Definition BLOB_ACCEPT : string := "application/vnd.docker.container.image.v1+json".

(** The [RepositoryInfo] interface. *)
Record RepositoryInfo := mkInfo {
  info_name : option string;
  info_description : option string;
  star_count : option nat;
  pull_count : option nat;
  last_updated : option string;
  is_private : option bool;
  has_tags : option bool;
  available_tags : option (list string)
}.

(** What [testRepositoryAccess] resolves with:
    [{ exists: boolean; tags: string[]; error?: string }]. *)
Record AccessReport := mkReport {
  repo_exists : bool;
  report_tags : list string;
  report_error : option string
}.

Module DockerRegistryClient.
Section methods.
Variable net : Upstream.

(** [while (nextUrl) { ... }] of [getRepositoriesFromDockerHub]; one unit
    of fuel per page fetched. *)
Fixpoint while_nextUrl (fuel : nat) (repositories : list Named)
    (nextUrl : option string) : M (list Named) :=
  match truthy nextUrl with
  | None => ret repositories
  | Some page_url =>
      match fuel with
      | O => diverge
      | S fuel' =>
          let* data := axios_get (hub_repositories net) (mkRequest page_url []) in
          while_nextUrl fuel' (repositories ++ results data) (next data)
      end
  end.

Definition getRepositoriesFromDockerHub (fuel : nat) : M (list string) :=
  try_catch
    (let* repositories :=
       while_nextUrl fuel []
         (Some ("https://hub.docker.com/v2/repositories/" +:+
                DOCKER_HUB_NAMESPACE +:+ "/?page_size=100")) in
     ret (map (fun repo => DOCKER_HUB_NAMESPACE +:+ "/" +:+ entry_name repo)
              repositories))
    (fun error => ret []).

Definition getRepositoryTags (repo : string) : M (list string) :=
  try_catch
    (let* data :=
       axios_get (hub_tags net)
         (mkRequest ("https://hub.docker.com/v2/repositories/" +:+ repo +:+
                     "/tags/?page_size=100") []) in
     ret (map entry_name (tag_results data)))
    (fun error => if status_is error 404 then ret [] else ret []).

Definition getRepositoryInfo (repo : string) : M (option RepositoryInfo) :=
  try_catch
    (let* data :=
       axios_get (hub_repository net)
         (mkRequest ("https://hub.docker.com/v2/repositories/" +:+ repo +:+ "/")
                    []) in
     let* tags := getRepositoryTags repo in
     ret (Some {| info_name := data_name data;
                  info_description := data_description data;
                  star_count := data_star_count data;
                  pull_count := data_pull_count data;
                  last_updated := data_last_updated data;
                  is_private := data_is_private data;
                  has_tags := Some (0 <? length tags)%nat;
                  available_tags := Some tags |}))
    (fun error => if status_is error 404 then ret None else ret None).

Definition getDockerHubAuthToken (repo : string) : M string :=
  try_catch
    (let authUrl :=
       "https://auth.docker.io/token?service=registry.docker.io&scope=repository:"
       +:+ repo +:+ ":pull" in
     let* data :=
       axios_get (auth_token net)
         (mkRequest authUrl [("User-Agent", "Docker Registry Client")]) in
     match truthy (token data) with
     | None => throw (Error "No token received from Docker Hub auth service")
     | Some tk => ret tk
     end)
    (fun error => throw error).

(** [getManifest] from its first request on, the tag being settled. *)
Definition requestManifest (repo tag : string) : M (option Manifest) :=
  let manifest_url :=
    REGISTRY_API_BASE_URL +:+ "/" +:+ repo +:+ "/manifests/" +:+ tag in
  try_catch
    (try_catch
       (axios_get (registry_manifests net)
          (mkRequest manifest_url [("Accept", MANIFEST_ACCEPT)]))
       (fun error =>
          if status_is error 401 then
            let* tk := getDockerHubAuthToken repo in
            axios_get (registry_manifests net)
              (mkRequest manifest_url
                 [("Authorization", "Bearer " +:+ tk);
                  ("Accept", MANIFEST_ACCEPT)])
          else if status_is error 404 then
            let* availableTags := getRepositoryTags repo in
            throw (Error ("Tag '" +:+ tag +:+ "' not found for repository " +:+
                          repo +:+ ". Available tags: " +:+
                          join ", " availableTags))
          else throw error))
    (fun error => throw error).

Definition getManifest (repo : string) (tag : option string)
    : M (option Manifest) :=
  match truthy tag with
  | Some tag => requestManifest repo tag
  | None =>
      let* tags := getRepositoryTags repo in
      if (length tags =? 0)%nat then ret None
      else requestManifest repo
             (if includes "latest" tags then "latest" else default "" (head tags))
  end.

Definition getConfig (repo digest : string) : M (option ConfigBlob) :=
  let blob_url :=
    REGISTRY_API_BASE_URL +:+ "/" +:+ repo +:+ "/blobs/" +:+ digest in
  try_catch
    (try_catch
       (axios_get (registry_blobs net)
          (mkRequest blob_url [("Accept", BLOB_ACCEPT)]))
       (fun error =>
          if status_is error 401 then
            let* tk := getDockerHubAuthToken repo in
            axios_get (registry_blobs net)
              (mkRequest blob_url
                 [("Authorization", "Bearer " +:+ tk);
                  ("Accept", BLOB_ACCEPT)])
          else throw error))
    (fun error => throw error).

(** The status with which the summary endpoint answers. *)
Variable answered_status : Log -> Request -> nat.

Definition checkRepositoryExists (repo : string) : M bool :=
  try_catch
    (let* response_status :=
       axios_get_status (hub_repository net) answered_status
         (mkRequest ("https://hub.docker.com/v2/repositories/" +:+ repo +:+ "/")
                    []) in
     ret (response_status =? 200)%nat)
    (fun error => if status_is error 404 then ret false else ret false).

Definition getManifestWithAnyTag (repo : string) : M (option (Manifest * string)) :=
  let* tags := getRepositoryTags repo in
  if (length tags =? 0)%nat then ret None
  else
    let selectedTag :=
      if includes "latest" tags then "latest" else default "" (head tags) in
    let* manifest := getManifest repo (Some selectedTag) in
    match manifest with
    | None => ret None
    | Some manifest => ret (Some (manifest, selectedTag))
    end.

Definition testRepositoryAccess (repo : string) : M AccessReport :=
  try_catch
    (let* found := checkRepositoryExists repo in
     if negb found then
       ret {| repo_exists := false; report_tags := [];
              report_error := Some "Repository does not exist" |}
     else
       let* tags := getRepositoryTags repo in
       if (length tags =? 0)%nat then
         ret {| repo_exists := true; report_tags := [];
                report_error := Some "No tags found" |}
       else
         let tagToTest :=
           if includes "latest" tags then "latest" else default "" (head tags) in
         try_catch
           (let* _ := getManifest repo (Some tagToTest) in
            ret {| repo_exists := true; report_tags := tags; report_error := None |})
           (fun error =>
              ret {| repo_exists := true; report_tags := tags;
                     report_error :=
                       Some ("Failed to access manifest: " +:+ message error) |}))
    (fun error =>
       ret {| repo_exists := false; report_tags := [];
              report_error := Some (message error) |}).
End methods.
End DockerRegistryClient.

(** ** infrastructure/repositories/appRepository *)

(** The methods of the client that the repository calls. *)
Record RegistryClient := mkClient {
  getRepositoriesFromDockerHub : M (list string);
  getRepositoryInfo : string -> M (option RepositoryInfo);
  getManifest : string -> option string -> M (option Manifest);
  getConfig : string -> string -> M (option ConfigBlob)
}.

(** [new DockerRegistryClient()] talking to [net]. *)
Definition dockerClient (fuel : nat) (net : Upstream) : RegistryClient :=
  {| getRepositoriesFromDockerHub :=
       DockerRegistryClient.getRepositoriesFromDockerHub net fuel;
     getRepositoryInfo := DockerRegistryClient.getRepositoryInfo net;
     getManifest := DockerRegistryClient.getManifest net;
     getConfig := DockerRegistryClient.getConfig net |}.

Definition NO_DESCRIPTION : string := "No description provided.".
Definition PLACEHOLDER_PICTURE : string := "https://via.placeholder.com/150".
Definition UNAVAILABLE : string := "Repository information unavailable.".

(** [!repoInfo.has_tags || repoInfo.available_tags?.length === 0] *)
Definition reports_no_tags (repoInfo : RepositoryInfo) : bool :=
  negb (default false (has_tags repoInfo))
  || match available_tags repoInfo with
     | Some tags => (length tags =? 0)%nat
     | None => false
     end.

(** [config.config?.Labels || {}] *)
Definition labels_of (config : ConfigBlob) : gmap string string :=
  default ∅ (blob_config config ≫= Labels).

Module AppRepository.
Section methods.
Variable client : RegistryClient.

(** The record of basic repository information, written out four times
    in [findAll]. *)
Definition basicApp (repoInfo : RepositoryInfo) (repoName : string)
    : M (option App) :=
  let* location := AppLocation.create repoName in
  ret (Some {| name := js_or (info_name repoInfo) repoName;
               location := location;
               description := js_or (info_description repoInfo) NO_DESCRIPTION;
               pictureUrl := PLACEHOLDER_PICTURE |}).

(** The [try] block of the [async (repoName) => ...] that [findAll] maps
    over the listing; [None] is its [null]. *)
Definition resolveRepository (repoName : string) : M (option App) :=
  let* repoInfo := getRepositoryInfo client repoName in
  match repoInfo with
  | None => ret None
  | Some repoInfo =>
      if reports_no_tags repoInfo then basicApp repoInfo repoName
      else
        let* manifest := getManifest client repoName None in
        match manifest with
        | None => basicApp repoInfo repoName
        | Some manifest =>
            match manifest_config manifest ≫= (fun c => truthy (digest c)) with
            | None => basicApp repoInfo repoName
            | Some config_digest =>
                let* config := getConfig client repoName config_digest in
                match config with
                | None => basicApp repoInfo repoName
                | Some config =>
                    let labels := labels_of config in
                    let* location := AppLocation.create repoName in
                    ret (Some
                      {| name :=
                           js_or (labels !! "org.opencontainers.image.title")
                             (js_or (info_name repoInfo) repoName);
                         location := location;
                         description :=
                           js_or (labels !! "org.opencontainers.image.description")
                             (js_or (info_description repoInfo) NO_DESCRIPTION);
                         pictureUrl :=
                           js_or (labels !! "com.app-store.picture-url")
                             PLACEHOLDER_PICTURE |})
                end
            end
        end
  end.

(** Its [catch] block: the last resort, with a [try] of its own. *)
Definition lastResort (repoName : string) : M (option App) :=
  try_catch
    (let* location := AppLocation.create repoName in
     ret (Some {| name := repoName;
                  location := location;
                  description := UNAVAILABLE;
                  pictureUrl := PLACEHOLDER_PICTURE |}))
    (fun locationError => ret None).

Definition processRepository (repoName : string) : M (option App) :=
  try_catch (resolveRepository repoName) (fun error => lastResort repoName).

(** [findAll]. The guard [if (!repositories) return []] never fires, an
    array being truthy. [apps.filter(app => app !== null)] is [omap id]. *)
Definition findAll : M (list App) :=
  try_catch
    (let* repositories := getRepositoriesFromDockerHub client in
     let appPromises := map processRepository repositories in
     let* apps := Promise_all appPromises in
     ret (omap id apps))
    (fun error => ret []).
End methods.
End AppRepository.

(** ** interfaces/http/controllers/appController *)

Record AppDTO := mkDTO {
  dto_name : string;
  dto_location : string;
  dto_description : string;
  dto_pictureUrl : string
}.

(** What [res.status(code).json(body)] sends. *)
Record HttpResponse := mkHttpResponse {
  status : nat;
  json : list AppDTO
}.

Module AppService.
(** [AppService.getAllApps] of application/services/appService:
    [return this.appRepository.findAll()], the repository being the
    [IAppRepository] given to the constructor, of which [findAll] is the
    one method. *)
Definition getAllApps (appRepository : M (list App)) : M (list App) :=
  appRepository.
End AppService.

(** The mapping of a domain object to its DTO. *)
Definition toDTO (app : App) : AppDTO :=
  {| dto_name := name app;
     dto_location := AppLocation.value (location app);
     dto_description := description app;
     dto_pictureUrl := pictureUrl app |}.

Definition getAllAppsController (client : RegistryClient) : M HttpResponse :=
  let* apps := AppService.getAllApps (AppRepository.findAll client) in
  let appDTOs := map toDTO apps in
  ret {| status := 200; json := appDTOs |}.

(** ** Requests and scripted upstreams *)

#[global] Instance Request_eq_dec : EqDecision Request.
Proof. solve_decision. Defined.

Definition NOT_FOUND : JsError :=
  mkError (Some 404) "Request failed with status code 404".
Definition UNAUTHORIZED : JsError :=
  mkError (Some 401) "Request failed with status code 401".
Definition SERVER_ERROR : JsError :=
  mkError (Some 500) "Request failed with status code 500".

(** A service that answers from a table of requests, whatever came before,
    and with 404 outside the table. *)
Definition serve {A} (table : list (Request * Response A))
    : Log -> Request -> Response A :=
  fun _ request =>
    match find (fun entry => bool_decide (entry.1 = request)) table with
    | Some entry => entry.2
    | None => Failure NOT_FOUND
    end.

Definition GET (u : string) : Request := mkRequest u [].

Definition hub (path : string) : string :=
  "https://hub.docker.com/v2/repositories/" +:+ path.

Definition shop : string := "abdelrahmanelbadawy1/shop".
Definition blog : string := "abdelrahmanelbadawy1/blog".

Definition manifest_request (repo tag : string) (bearer : option string) : Request :=
  mkRequest (REGISTRY_API_BASE_URL +:+ "/" +:+ repo +:+ "/manifests/" +:+ tag)
    (match bearer with
     | Some tk => [("Authorization", "Bearer " +:+ tk); ("Accept", MANIFEST_ACCEPT)]
     | None => [("Accept", MANIFEST_ACCEPT)]
     end).

Definition blob_request (repo dg : string) (bearer : option string) : Request :=
  mkRequest (REGISTRY_API_BASE_URL +:+ "/" +:+ repo +:+ "/blobs/" +:+ dg)
    (match bearer with
     | Some tk => [("Authorization", "Bearer " +:+ tk); ("Accept", BLOB_ACCEPT)]
     | None => [("Accept", BLOB_ACCEPT)]
     end).

Definition token_request (repo : string) : Request :=
  mkRequest
    ("https://auth.docker.io/token?service=registry.docker.io&scope=repository:"
     +:+ repo +:+ ":pull")
    [("User-Agent", "Docker Registry Client")].

Definition tags_request (repo : string) : Request :=
  GET (hub (repo +:+ "/tags/?page_size=100")).

Definition summary (n d : string) : RepositoryData :=
  mkData (Some n) (Some d) (Some 0) (Some 0) None (Some false).

(** Two catalogue pages, [shop] on the first and [blog] on the second. The
    registry wants a token for [shop]; its blob carries the three labels.
    [blog] has a summary and no tag. *)
Definition demo : Upstream :=
  {| hub_repositories := serve
       [(GET (hub "abdelrahmanelbadawy1/?page_size=100"),
         Answer (mkPage [mkNamed "shop"]
                   (Some (hub "abdelrahmanelbadawy1/?page=2&page_size=100"))));
        (GET (hub "abdelrahmanelbadawy1/?page=2&page_size=100"),
         Answer (mkPage [mkNamed "blog"] None))];
     hub_repository := serve
       [(GET (hub (shop +:+ "/")), Answer (summary "shop" "A shop"));
        (GET (hub (blog +:+ "/")), Answer (summary "blog" "A blog"))];
     hub_tags := serve
       [(tags_request shop, Answer (mkTags [mkNamed "v1"; mkNamed "latest"]));
        (tags_request blog, Answer (mkTags []))];
     auth_token := serve
       [(token_request shop, Answer (mkToken (Some "tk")))];
     registry_manifests := serve
       [(manifest_request shop "latest" None, Failure UNAUTHORIZED);
        (manifest_request shop "latest" (Some "tk"),
         Answer (Some (mkManifest (Some (mkManifestConfig (Some "sha256:0a"))))))];
     registry_blobs := serve
       [(blob_request shop "sha256:0a" None, Failure UNAUTHORIZED);
        (blob_request shop "sha256:0a" (Some "tk"),
         Answer (Some (mkBlob (Some (mkImageConfig (Some
           (<["org.opencontainers.image.title" := "Shop"]>
            (<["org.opencontainers.image.description" := "Buy things"]>
             (<["com.app-store.picture-url" := "https://img/shop.png"]> ∅)))))))))] |}.

(** ** Walks of the catalogue

    [paging net log cursor pages stop log'] holds when following the cursors
    from [cursor], with [log] already sent, fetches [pages] in that order and
    then stops, at a falsy cursor ([stop = None]) or at a request that fails
    with [e] ([stop = Some e]); [log'] is the log at the stop. *)
Inductive paging (net : Upstream)
    : Log -> option string -> list CatalogPage -> option JsError -> Log -> Prop :=
| paging_end log cursor :
    truthy cursor = None ->
    paging net log cursor [] None log
| paging_failure log cursor page_url e :
    truthy cursor = Some page_url ->
    hub_repositories net log (GET page_url) = Failure e ->
    paging net log cursor [] (Some e) (log ++ [GET page_url])
| paging_next log cursor page_url page pages stop log' :
    truthy cursor = Some page_url ->
    hub_repositories net log (GET page_url) = Answer page ->
    paging net (log ++ [GET page_url]) (next page) pages stop log' ->
    paging net log cursor (page :: pages) stop log'.

Definition FIRST_PAGE : string := hub (DOCKER_HUB_NAMESPACE +:+ "/?page_size=100").

(** The names on a list of pages, in page order, with the namespace put
    before each. *)
Definition listed (pages : list CatalogPage) : list string :=
  map (fun repo => DOCKER_HUB_NAMESPACE +:+ "/" +:+ entry_name repo)
      (concat (map results pages)).

(** ** The tag of a manifest request

    The tags that the listing of [repo] reports when [log] has been sent;
    none when the request fails. *)
Definition reported_tags (net : Upstream) (log : Log) (repo : string) : list string :=
  match hub_tags net log (tags_request repo) with
  | Answer data => map entry_name (tag_results data)
  | Failure _ => []
  end.

(** The tag [getManifest] falls back on when it is called without one. *)
Definition default_tag (tags : list string) : string :=
  if bool_decide ("latest" ∈ tags) then "latest" else default "" (head tags).

(** [known_tag net repo tag_arg log tag log']: called with [tag_arg] when
    [log] has been sent, [getManifest] settles on [tag], either given by
    the caller or selected from a tag listing that is not empty, and has
    sent [log'] when it turns to the registry. *)
Inductive known_tag (net : Upstream) (repo : string)
    : option string -> Log -> string -> Log -> Prop :=
| tag_given tag_arg tag log :
    truthy tag_arg = Some tag ->
    known_tag net repo tag_arg log tag log
| tag_selected tag_arg tags log log' :
    truthy tag_arg = None ->
    DockerRegistryClient.getRepositoryTags net repo log = (Ok tags, log') ->
    tags <> [] ->
    known_tag net repo tag_arg log (default_tag tags) log'.

(** The message of the error raised for a tag that the registry does not
    have. *)
Definition tag_not_found (repo tag : string) (availableTags : list string) : string :=
  "Tag '" +:+ tag +:+ "' not found for repository " +:+ repo +:+
  ". Available tags: " +:+ join ", " availableTags.

(** ** The records of the aggregator

    The record made of the repository information alone. *)
Definition basicRecord (repoInfo : RepositoryInfo) (repoName : string) : App :=
  {| name := js_or (info_name repoInfo) repoName;
     location := AppLocation.mk repoName;
     description := js_or (info_description repoInfo) NO_DESCRIPTION;
     pictureUrl := PLACEHOLDER_PICTURE |}.

(** The record of the last resort. *)
Definition minimalRecord (repoName : string) : App :=
  {| name := repoName;
     location := AppLocation.mk repoName;
     description := UNAVAILABLE;
     pictureUrl := PLACEHOLDER_PICTURE |}.

(** The record made of the labels, the repository information behind. *)
Definition labelledRecord (labels : gmap string string) (repoInfo : RepositoryInfo)
    (repoName : string) : App :=
  {| name := js_or (labels !! "org.opencontainers.image.title")
               (js_or (info_name repoInfo) repoName);
     location := AppLocation.mk repoName;
     description := js_or (labels !! "org.opencontainers.image.description")
                      (js_or (info_description repoInfo) NO_DESCRIPTION);
     pictureUrl := js_or (labels !! "com.app-store.picture-url") PLACEHOLDER_PICTURE |}.

(** What the resolution of [repoName], forked at [fork], contributes to the
    batch: its record, or nothing. *)
Definition recordOf (client : RegistryClient) (fork : Log) (repoName : string)
    : option App :=
  match (AppRepository.processRepository client repoName fork).1 with
  | Ok record => record
  | _ => None
  end.

(** Whether the summary of [repo] is served when [log] has been sent. *)
Definition has_summary (net : Upstream) (log : Log) (repo : string) : bool :=
  match hub_repository net log (GET (hub (repo +:+ "/"))) with
  | Answer _ => true
  | Failure _ => false
  end.

(** [demo] with the blob endpoint out of order. *)
Definition blobs_down : Upstream :=
  {| hub_repositories := hub_repositories demo;
     hub_repository := hub_repository demo;
     hub_tags := hub_tags demo;
     auth_token := auth_token demo;
     registry_manifests := registry_manifests demo;
     registry_blobs := fun _ _ => Failure SERVER_ERROR |}.

(** [demo] with the summary of [blog] gone. *)
Definition blog_gone : Upstream :=
  {| hub_repositories := hub_repositories demo;
     hub_repository := serve
       [(GET (hub (shop +:+ "/")), Answer (summary "shop" "A shop"))];
     hub_tags := hub_tags demo;
     auth_token := auth_token demo;
     registry_manifests := registry_manifests demo;
     registry_blobs := registry_blobs demo |}.

(** [demo] with a registry that does not know the tag of [shop] and a second
    catalogue page that cannot be fetched. *)
Definition tag_unknown : Upstream :=
  {| hub_repositories := serve
       [(GET (hub "abdelrahmanelbadawy1/?page_size=100"),
         Answer (mkPage [mkNamed "shop"]
                   (Some (hub "abdelrahmanelbadawy1/?page=2&page_size=100"))));
        (GET (hub "abdelrahmanelbadawy1/?page=2&page_size=100"),
         Failure SERVER_ERROR)];
     hub_repository := hub_repository demo;
     hub_tags := hub_tags demo;
     auth_token := auth_token demo;
     registry_manifests := fun _ _ => Failure NOT_FOUND;
     registry_blobs := registry_blobs demo |}.

(** ** More requests, scripted upstreams and notions for the properties *)

Definition summary_request (repo : string) : Request := GET (hub (repo +:+ "/")).

(** Whether a string is made of white space only; the empty string is. *)
Fixpoint all_white_space (s : string) : bool :=
  match s with
  | EmptyString => true
  | String c rest => is_white_space c && all_white_space rest
  end.

(** The information that [getRepositoryInfo] builds from a summary and the
    tags of the listing. *)
Definition infoOf (data : RepositoryData) (tags : list string) : RepositoryInfo :=
  {| info_name := data_name data;
     info_description := data_description data;
     star_count := data_star_count data;
     pull_count := data_pull_count data;
     last_updated := data_last_updated data;
     is_private := data_is_private data;
     has_tags := Some (0 <? length tags)%nat;
     available_tags := Some tags |}.

(** What [getManifestWithAnyTag] makes of the outcome of a manifest fetch
    for [tag]. *)
Definition with_tag (tag : string) (fetched : Outcome (option Manifest) * Log)
    : Outcome (option (Manifest * string)) * Log :=
  match fetched with
  | (Ok (Some manifest), log) => (Ok (Some (manifest, tag)), log)
  | (Ok None, log) => (Ok None, log)
  | (Throw e, log) => (Throw e, log)
  | (Diverge, log) => (Diverge, log)
  end.

(** [demo] with a manifest of [shop] that names no config. *)
Definition no_digest : Upstream :=
  {| hub_repositories := hub_repositories demo;
     hub_repository := hub_repository demo;
     hub_tags := hub_tags demo;
     auth_token := auth_token demo;
     registry_manifests := fun _ _ => Answer (Some (mkManifest None));
     registry_blobs := registry_blobs demo |}.

(** [demo] with a tag listing that reports the tags of [shop] once, and no
    tag when it is asked again. *)
Definition vanishing_tags : Upstream :=
  {| hub_repositories := hub_repositories demo;
     hub_repository := hub_repository demo;
     hub_tags := fun log request =>
       if bool_decide (request ∈ log) then Answer (mkTags [])
       else hub_tags demo log request;
     auth_token := auth_token demo;
     registry_manifests := registry_manifests demo;
     registry_blobs := registry_blobs demo |}.

(** [demo] with a registry out of order. *)
Definition registry_down : Upstream :=
  {| hub_repositories := hub_repositories demo;
     hub_repository := hub_repository demo;
     hub_tags := hub_tags demo;
     auth_token := auth_token demo;
     registry_manifests := fun _ _ => Failure SERVER_ERROR;
     registry_blobs := registry_blobs demo |}.

(** [demo] with a token endpoint that answers without a token. *)
Definition no_token : Upstream :=
  {| hub_repositories := hub_repositories demo;
     hub_repository := hub_repository demo;
     hub_tags := hub_tags demo;
     auth_token := fun _ _ => Answer (mkToken None);
     registry_manifests := registry_manifests demo;
     registry_blobs := registry_blobs demo |}.

(** A catalogue whose every page names the first page as the next one. *)
Definition looping : Upstream :=
  {| hub_repositories := fun _ _ =>
       Answer (mkPage [mkNamed "shop"]
                 (Some (hub "abdelrahmanelbadawy1/?page_size=100")));
     hub_repository := hub_repository demo;
     hub_tags := hub_tags demo;
     auth_token := auth_token demo;
     registry_manifests := registry_manifests demo;
     registry_blobs := registry_blobs demo |}.

(** The summary endpoint answering with 200, and with 204. *)
Definition status_200 : Log -> Request -> nat := fun _ _ => 200.
Definition status_204 : Log -> Request -> nat := fun _ _ => 204.


(** ** Ways a computation cannot end *)

Definition settles {A} (m : M A) : Prop := forall log, (m log).1 <> Diverge.

Definition never_throws {A} (m : M A) : Prop := forall log e, (m log).1 <> Throw e.

(** * Properties *)

(** ** The monad *)

Lemma settles_ret {A} (a : A) : settles (ret a).
Proof. intros log; discriminate. Qed.

Lemma settles_throw {A} e : settles (@throw A e).
Proof. intros log; discriminate. Qed.

Lemma settles_bind {A B} (m : M A) (k : A -> M B) :
  settles m -> (forall a, settles (k a)) -> settles (bind m k).
Proof.
  intros Hm Hk log. unfold bind. specialize (Hm log).
  destruct (m log) as [[a|e|] log']; simpl in *; [apply Hk | discriminate | done].
Qed.

Lemma settles_try_catch {A} (m : M A) h :
  settles m -> (forall e, settles (h e)) -> settles (try_catch m h).
Proof.
  intros Hm Hh log. unfold try_catch. specialize (Hm log).
  destruct (m log) as [[a|e|] log']; simpl in *; [discriminate | apply Hh | done].
Qed.

Lemma settles_axios_get {A} (service : Log -> Request -> Response A) r :
  settles (axios_get service r).
Proof. intros log. unfold axios_get. destruct (service log r); discriminate. Qed.

Lemma never_throws_try_catch {A} (m : M A) h :
  (forall e, never_throws (h e)) -> never_throws (try_catch m h).
Proof.
  intros Hh log e. unfold try_catch.
  destruct (m log) as [[a|e'|] log']; simpl; [discriminate | apply Hh | discriminate].
Qed.

(** ** Pagination *)

Lemma while_nextUrl_paging net log cursor pages stop log' :
  paging net log cursor pages stop log' ->
  forall fuel acc, length pages < fuel ->
    DockerRegistryClient.while_nextUrl net fuel acc cursor log =
      (match stop with
       | None => Ok (acc ++ concat (map results pages))
       | Some e => Throw e
       end, log').
Proof.
  induction 1 as [log cursor Hc | log cursor u e Hc Hf
                 | log cursor u page pages stop log' Hc Ha _ IH];
    intros fuel acc Hfuel.
  - destruct fuel; simpl; rewrite Hc, app_nil_r; reflexivity.
  - destruct fuel as [|fuel]; [simpl in Hfuel; lia|].
    simpl. rewrite Hc. unfold bind, axios_get. fold (GET u). rewrite Hf. reflexivity.
  - destruct fuel as [|fuel]; [simpl in Hfuel; lia|].
    simpl. rewrite Hc. unfold bind, axios_get. fold (GET u). rewrite Ha.
    rewrite IH by (simpl in Hfuel; lia).
    destruct stop; [reflexivity|]. rewrite <- app_assoc. reflexivity.
Qed.

(** C4. [getRepositoriesFromDockerHub] follows the cursors from the first
    page. When the walk ends at a page whose cursor is null (or empty), it
    returns the names of all the pages walked, in page order, each with the
    namespace before it; when a request of the walk fails, it returns the
    empty list, whatever the earlier pages held. In both cases the requests
    sent are those of the walk, and any fuel above the number of pages will
    do. *)
Theorem getRepositoriesFromDockerHub_pages net log pages stop log' fuel :
  paging net log (Some FIRST_PAGE) pages stop log' ->
  length pages < fuel ->
  DockerRegistryClient.getRepositoriesFromDockerHub net fuel log =
    (Ok (match stop with None => listed pages | Some _ => [] end), log').
Proof.
  intros Hwalk Hfuel.
  unfold DockerRegistryClient.getRepositoriesFromDockerHub, try_catch, bind.
  change ("https://hub.docker.com/v2/repositories/" +:+ DOCKER_HUB_NAMESPACE +:+
          "/?page_size=100") with FIRST_PAGE.
  rewrite (while_nextUrl_paging _ _ _ _ _ _ Hwalk fuel [] Hfuel).
  destruct stop; reflexivity.
Qed.

(** ** The registry client *)

Lemma includes_elem_of x xs : includes x xs = bool_decide (x ∈ xs).
Proof.
  induction xs as [|y ys IH]; simpl; [reflexivity|].
  rewrite IH. destruct (String.eqb_spec x y) as [->|Hne]; simpl.
  - symmetry. apply bool_decide_eq_true. left.
  - destruct (decide (x ∈ ys)) as [Hin|Hin].
    + rewrite !bool_decide_eq_true_2; [reflexivity | by right | done].
    + rewrite !bool_decide_eq_false_2; [reflexivity | | done].
      by intros [?|?]%elem_of_cons.
Qed.

Lemma truthy_Some x s : truthy x = Some s -> x = Some s /\ s <> "".
Proof.
  destruct x as [t|]; simpl; [|discriminate].
  destruct (String.eqb_spec t ""); [discriminate|]. by intros [= ->].
Qed.

Lemma truthy_nonempty s : s <> "" -> truthy (Some s) = Some s.
Proof. intros Hs. simpl. by destruct (String.eqb_spec s ""). Qed.


(** The tag listing never fails: a failed request counts as no tag. *)
Lemma getRepositoryTags_run net repo log :
  DockerRegistryClient.getRepositoryTags net repo log =
    (Ok (reported_tags net log repo), log ++ [tags_request repo]).
Proof.
  unfold DockerRegistryClient.getRepositoryTags, reported_tags, try_catch, bind, axios_get.
  change (mkRequest _ []) with (tags_request repo).
  destruct (hub_tags net log (tags_request repo)) as [data|e]; [reflexivity|].
  simpl. by destruct (status_is e 404).
Qed.

Lemma getDockerHubAuthToken_run net repo log :
  DockerRegistryClient.getDockerHubAuthToken net repo log =
    (match auth_token net log (token_request repo) with
     | Answer data =>
         match truthy (token data) with
         | Some tk => Ok tk
         | None => Throw (Error "No token received from Docker Hub auth service")
         end
     | Failure e => Throw e
     end, log ++ [token_request repo]).
Proof.
  unfold DockerRegistryClient.getDockerHubAuthToken, try_catch, bind, axios_get.
  change (mkRequest _ [("User-Agent", _)]) with (token_request repo).
  destruct (auth_token net log (token_request repo)) as [data|e]; [|reflexivity].
  by destruct (truthy (token data)).
Qed.

(** [requestManifest], case by case. *)
Lemma requestManifest_run net repo tag log :
  let attempt := manifest_request repo tag None in
  let log1 := log ++ [attempt] in
  DockerRegistryClient.requestManifest net repo tag log =
    match registry_manifests net log attempt with
    | Answer doc => (Ok doc, log1)
    | Failure e =>
        if status_is e 401 then
          match DockerRegistryClient.getDockerHubAuthToken net repo log1 with
          | (Ok tk, log2) =>
              let retry := manifest_request repo tag (Some tk) in
              (match registry_manifests net log2 retry with
               | Answer doc => Ok doc
               | Failure e' => Throw e'
               end, log2 ++ [retry])
          | (Throw e', log2) => (Throw e', log2)
          | (Diverge, log2) => (Diverge, log2)
          end
        else if status_is e 404 then
          (Throw (Error (tag_not_found repo tag (reported_tags net log1 repo))),
           log1 ++ [tags_request repo])
        else (Throw e, log1)
    end.
Proof.
  intros attempt log1.
  unfold DockerRegistryClient.requestManifest, try_catch at 1 2, axios_get at 1.
  change (mkRequest _ [("Accept", MANIFEST_ACCEPT)]) with attempt.
  destruct (registry_manifests net log attempt) as [doc|e]; [reflexivity|].
  fold log1. destruct (status_is e 401).
  - unfold bind. destruct (DockerRegistryClient.getDockerHubAuthToken net repo log1)
      as [[tk|e'|] log2]; try reflexivity.
    unfold axios_get.
    change (mkRequest _ [("Authorization", _); _]) with (manifest_request repo tag (Some tk)).
    by destruct (registry_manifests net log2 _).
  - destruct (status_is e 404); [|reflexivity].
    unfold bind. rewrite getRepositoryTags_run. reflexivity.
Qed.

(** The first request of [requestManifest] is the manifest request without
    credentials. *)
Lemma requestManifest_first_request net repo tag log :
  exists sent,
    (DockerRegistryClient.requestManifest net repo tag log).2 =
      log ++ manifest_request repo tag None :: sent.
Proof.
  rewrite requestManifest_run, getDockerHubAuthToken_run.
  set (attempt := manifest_request repo tag None).
  set (ask := token_request repo).
  destruct (registry_manifests net log attempt) as [doc|e]; [by exists []|].
  destruct (status_is e 401).
  - destruct (auth_token net (log ++ [attempt]) ask) as [data|e'].
    + destruct (truthy (token data)) as [tk|]; simpl.
      * exists [ask; manifest_request repo tag (Some tk)].
        by rewrite <- !app_assoc.
      * exists [ask]. by rewrite <- app_assoc.
    + exists [ask]. simpl. by rewrite <- app_assoc.
  - destruct (status_is e 404); simpl.
    + exists [tags_request repo]. by rewrite <- app_assoc.
    + by exists [].
Qed.

Lemma getManifest_known_tag net repo tag_arg log0 tag log :
  known_tag net repo tag_arg log0 tag log ->
  DockerRegistryClient.getManifest net repo tag_arg log0 =
    DockerRegistryClient.requestManifest net repo tag log.
Proof.
  intros [tag_arg' tag' log' Ht | tag_arg' tags log' log'' Ht Htags Hne];
    unfold DockerRegistryClient.getManifest; rewrite Ht; [reflexivity|].
  unfold bind. rewrite Htags.
  destruct tags as [|t ts]; [done|]. simpl length. simpl Nat.eqb. cbv iota.
  unfold default_tag. rewrite includes_elem_of. reflexivity.
Qed.

(** C5. Once the tag is settled, [getManifest] first sends the manifest
    request without credentials. If that request is answered, the document
    is returned and nothing else is sent. If it fails with 401, and only
    then, the token endpoint is asked for a token of scope
    [repository:<repo>:pull]; with the token in hand the same request is
    sent once more, now with [Authorization: Bearer <token>], and its
    outcome, the document on success, is the outcome of [getManifest].
    After a failure other than 401 neither the token request nor a second
    manifest request is sent, and an error is raised. *)
Theorem getManifest_fetch_policy net repo tag_arg log0 tag log :
  known_tag net repo tag_arg log0 tag log ->
  let attempt := manifest_request repo tag None in
  let ask := token_request repo in
  let call := DockerRegistryClient.getManifest net repo tag_arg log0 in
  headers attempt = [("Accept", MANIFEST_ACCEPT)] /\
  url ask = "https://auth.docker.io/token?service=registry.docker.io&scope=repository:"
            +:+ repo +:+ ":pull" /\
  (exists sent, call.2 = log ++ attempt :: sent) /\
  (forall doc,
     registry_manifests net log attempt = Answer doc ->
     call = (Ok doc, log ++ [attempt])) /\
  (forall e,
     registry_manifests net log attempt = Failure e ->
     status_is e 401 = true ->
     (exists sent, call.2 = log ++ attempt :: ask :: sent) /\
     (forall tk,
        auth_token net (log ++ [attempt]) ask = Answer (mkToken (Some tk)) ->
        tk <> "" ->
        let retry := manifest_request repo tag (Some tk) in
        url retry = url attempt /\
        headers retry = ("Authorization", "Bearer " +:+ tk) :: headers attempt /\
        call = (match registry_manifests net (log ++ [attempt; ask]) retry with
                | Answer doc => Ok doc
                | Failure e' => Throw e'
                end, log ++ [attempt; ask; retry]))) /\
  (forall e,
     registry_manifests net log attempt = Failure e ->
     status_is e 401 = false ->
     exists e', call.1 = Throw e' /\
       (call.2 = log ++ [attempt] \/ call.2 = log ++ [attempt; tags_request repo])).
Proof.
  intros Hknown attempt ask call.
  assert (Hcall : call = DockerRegistryClient.requestManifest net repo tag log)
    by (apply getManifest_known_tag, Hknown).
  rewrite Hcall.
  split; [reflexivity|]. split; [reflexivity|].
  split; [apply requestManifest_first_request|].
  rewrite requestManifest_run. fold attempt.
  rewrite getDockerHubAuthToken_run. fold ask.
  split; [|split].
  - by intros doc ->.
  - intros e Hfail H401. rewrite Hfail, H401. split.
    + destruct (auth_token net (log ++ [attempt]) ask) as [data|e'].
      * destruct (truthy (token data)) as [tk|]; simpl.
        -- exists [manifest_request repo tag (Some tk)]. by rewrite <- !app_assoc.
        -- exists []. by rewrite <- app_assoc.
      * exists []. simpl. by rewrite <- app_assoc.
    + intros tk Hask Htk. rewrite Hask. simpl token.
      rewrite (truthy_nonempty _ Htk). cbv zeta.
      split; [reflexivity|]. split; [reflexivity|].
      rewrite <- !app_assoc. reflexivity.
  - intros e Hfail H401. rewrite Hfail, H401.
    destruct (status_is e 404); simpl; eexists; split; try reflexivity.
    + right. by rewrite <- app_assoc.
    + by left.
Qed.


(** C7. Called without a tag, [getManifest] first asks for the tags of the
    repository. With no tag reported it returns an absent manifest and has
    sent the tag listing request only. Otherwise the next request is the
    manifest request for ["latest"] when ["latest"] is among the tags, and
    for the first reported tag when it is not, and [getManifest] goes on as
    it does for that tag. *)
Theorem getManifest_without_tag net repo tag_arg log :
  truthy tag_arg = None ->
  let call := DockerRegistryClient.getManifest net repo tag_arg log in
  let listing := log ++ [tags_request repo] in
  exists tags,
    DockerRegistryClient.getRepositoryTags net repo log = (Ok tags, listing) /\
    (tags = [] -> call = (Ok None, listing)) /\
    (forall first rest, tags = first :: rest ->
       let tag := if bool_decide ("latest" ∈ tags) then "latest" else first in
       call = DockerRegistryClient.requestManifest net repo tag listing /\
       known_tag net repo tag_arg log tag listing /\
       exists sent, call.2 = listing ++ manifest_request repo tag None :: sent).
Proof.
  intros Hnone call listing.
  exists (reported_tags net log repo).
  split; [apply getRepositoryTags_run|]. split.
  - intros Hempty. unfold call, DockerRegistryClient.getManifest.
    rewrite Hnone. unfold bind. rewrite getRepositoryTags_run, Hempty. reflexivity.
  - intros first rest Htags tag.
    assert (Hknown : known_tag net repo tag_arg log tag listing).
    { replace tag with (default_tag (reported_tags net log repo))
        by (unfold default_tag, tag; rewrite Htags; reflexivity).
      eapply tag_selected; [done | apply getRepositoryTags_run |].
      by rewrite Htags. }
    split; [apply getManifest_known_tag, Hknown|]. split; [done|].
    unfold call. rewrite (getManifest_known_tag _ _ _ _ _ _ Hknown).
    apply requestManifest_first_request.
Qed.

(** ** Application locations *)

Lemma rev_app_not_empty t acc : acc <> "" -> String.rev_app t acc <> "".
Proof.
  revert acc. induction t as [|d t IH]; intros acc Hacc; simpl; [done|].
  by apply IH.
Qed.

Lemma drop_white_space_rev_app t acc :
  drop_white_space acc <> "" -> drop_white_space (String.rev_app t acc) <> "".
Proof.
  revert acc. induction t as [|d t IH]; intros acc Hacc; simpl; [done|].
  apply IH. simpl. by destruct (is_white_space d).
Qed.

(** A string that starts with a character other than white space is not
    blank. *)
Lemma blank_starts c rest : is_white_space c = false -> blank (String c rest) = false.
Proof.
  intros Hc. unfold blank, trim, String.rev.
  cbn [String.eqb orb drop_white_space String.rev_app]. rewrite Hc.
  cbn [String.rev_app].
  pose proof (drop_white_space_rev_app rest (String c "")) as Hkept.
  cbn [drop_white_space] in Hkept. rewrite Hc in Hkept.
  destruct (drop_white_space (String.rev_app rest (String c ""))) as [|d u];
    [by destruct Hkept|].
  cbn [String.rev_app].
  pose proof (rev_app_not_empty u (String d "")) as Hrev.
  destruct (String.rev_app u (String d "")); [by destruct Hrev | reflexivity].
Qed.

Lemma blank_namespaced r : blank (DOCKER_HUB_NAMESPACE +:+ "/" +:+ r) = false.
Proof. apply blank_starts. reflexivity. Qed.

Lemma create_run location log :
  AppLocation.create location log =
    (if blank location then Throw (Error "App location cannot be empty.")
     else Ok (AppLocation.mk location), log).
Proof. unfold AppLocation.create. by destruct (blank location). Qed.

(** ** The aggregator, one repository *)

Section one_repository.
Variable client : RegistryClient.

Lemma basicApp_run repoInfo repoName log :
  blank repoName = false ->
  AppRepository.basicApp repoInfo repoName log =
    (Ok (Some (basicRecord repoInfo repoName)), log).
Proof.
  intros Hvalid. unfold AppRepository.basicApp, bind.
  rewrite create_run, Hvalid. reflexivity.
Qed.

Lemma basicApp_blank repoInfo repoName log :
  blank repoName = true ->
  AppRepository.basicApp repoInfo repoName log =
    (Throw (Error "App location cannot be empty."), log).
Proof.
  intros Hblank. unfold AppRepository.basicApp, bind.
  rewrite create_run, Hblank. reflexivity.
Qed.

Lemma lastResort_run repoName log :
  AppRepository.lastResort repoName log =
    (Ok (if blank repoName then None else Some (minimalRecord repoName)), log).
Proof.
  unfold AppRepository.lastResort, try_catch, bind.
  rewrite create_run. by destruct (blank repoName).
Qed.

Lemma processRepository_caught repoName log e log' :
  AppRepository.resolveRepository client repoName log = (Throw e, log') ->
  AppRepository.processRepository client repoName log =
    (Ok (if blank repoName then None else Some (minimalRecord repoName)), log').
Proof.
  intros Hthrown. unfold AppRepository.processRepository, try_catch.
  rewrite Hthrown. apply lastResort_run.
Qed.

Lemma processRepository_resolved repoName log record log' :
  AppRepository.resolveRepository client repoName log = (Ok record, log') ->
  AppRepository.processRepository client repoName log = (Ok record, log').
Proof.
  intros Hok. unfold AppRepository.processRepository, try_catch.
  by rewrite Hok.
Qed.

Lemma processRepository_never_throws repoName :
  never_throws (AppRepository.processRepository client repoName).
Proof.
  apply never_throws_try_catch. intros e log e'.
  rewrite lastResort_run. discriminate.
Qed.

(** Every record carries the name it was resolved from as its location. *)
Lemma resolveRepository_location repoName log app log' :
  AppRepository.resolveRepository client repoName log = (Ok (Some app), log') ->
  AppLocation.value (location app) = repoName.
Proof.
  unfold AppRepository.resolveRepository, AppRepository.basicApp, bind.
  repeat (match goal with
          | |- context [match ?x with _ => _ end] => destruct x eqn:?
          end; try discriminate);
    match goal with
    | H : AppLocation.create _ _ = (Ok _, _) |- _ =>
        rewrite create_run in H; destruct (blank repoName); [discriminate|];
        injection H as <- <-
    end;
    by intros [= <- _].
Qed.

Lemma processRepository_location repoName log app log' :
  AppRepository.processRepository client repoName log = (Ok (Some app), log') ->
  AppLocation.value (location app) = repoName.
Proof.
  unfold AppRepository.processRepository, try_catch.
  destruct (AppRepository.resolveRepository client repoName log)
    as [[record|e|] log1] eqn:Hres.
  - intros [= -> ->]. eapply resolveRepository_location, Hres.
  - rewrite lastResort_run. destruct (blank repoName); [discriminate|].
    by intros [= <- _].
  - discriminate.
Qed.
End one_repository.

(** ** Termination of the client's methods *)

Ltac settle :=
  repeat first
    [ apply settles_ret
    | apply settles_throw
    | apply settles_axios_get
    | assumption
    | apply settles_bind; [|intros ?]
    | apply settles_try_catch; [|intros ?]
    | match goal with
      | |- settles (match ?x with _ => _ end) => destruct x
      | |- settles (if ?x then _ else _) => destruct x
      | H : forall _, settles _ |- _ => apply H
      | H : forall _ _, settles _ |- _ => apply H
      end ].

Lemma getRepositoryTags_settles net repo :
  settles (DockerRegistryClient.getRepositoryTags net repo).
Proof. unfold DockerRegistryClient.getRepositoryTags. settle. Qed.

Lemma getDockerHubAuthToken_settles net repo :
  settles (DockerRegistryClient.getDockerHubAuthToken net repo).
Proof. unfold DockerRegistryClient.getDockerHubAuthToken. cbv zeta. settle. Qed.

Lemma requestManifest_settles net repo tag :
  settles (DockerRegistryClient.requestManifest net repo tag).
Proof.
  pose proof (getRepositoryTags_settles net repo).
  pose proof (getDockerHubAuthToken_settles net repo).
  unfold DockerRegistryClient.requestManifest. cbv zeta. settle.
Qed.

Lemma getManifest_settles net repo tag :
  settles (DockerRegistryClient.getManifest net repo tag).
Proof.
  pose proof (getRepositoryTags_settles net repo).
  pose proof (requestManifest_settles net repo).
  unfold DockerRegistryClient.getManifest. settle.
Qed.

Lemma getConfig_settles net repo dg :
  settles (DockerRegistryClient.getConfig net repo dg).
Proof.
  pose proof (getDockerHubAuthToken_settles net repo).
  unfold DockerRegistryClient.getConfig. cbv zeta. settle.
Qed.

Lemma getRepositoryInfo_settles net repo :
  settles (DockerRegistryClient.getRepositoryInfo net repo).
Proof.
  pose proof (getRepositoryTags_settles net repo).
  unfold DockerRegistryClient.getRepositoryInfo. settle.
Qed.

Lemma create_settles location : settles (AppLocation.create location).
Proof. unfold AppLocation.create. settle. Qed.

Lemma processRepository_settles client repoName :
  (forall repo, settles (getRepositoryInfo client repo)) ->
  (forall repo tag, settles (getManifest client repo tag)) ->
  (forall repo dg, settles (getConfig client repo dg)) ->
  settles (AppRepository.processRepository client repoName).
Proof.
  intros Hinfo Hmanifest Hconfig.
  pose proof create_settles as Hcreate.
  unfold AppRepository.processRepository, AppRepository.resolveRepository,
    AppRepository.lastResort, AppRepository.basicApp.
  settle.
Qed.

Lemma dockerClient_settles fuel net repoName :
  settles (AppRepository.processRepository (dockerClient fuel net) repoName).
Proof.
  apply processRepository_settles; simpl; intros.
  - apply getRepositoryInfo_settles.
  - apply getManifest_settles.
  - apply getConfig_settles.
Qed.

(** ** The aggregator, the batch *)

Lemma omap_id_map {A B} (f : A -> option B) (l : list A) :
  omap id (map f l) = omap f l.
Proof.
  induction l as [|a l IH]; [done|].
  cbn. unfold id at 1. destruct (f a); cbn; by rewrite <- IH.
Qed.

Lemma gather_processRepository client fork names :
  (forall n, n ∈ names -> (AppRepository.processRepository client n fork).1 <> Diverge) ->
  (gather fork (map (AppRepository.processRepository client) names)).1 =
    Ok (map (recordOf client fork) names).
Proof.
  induction names as [|n names IH]; intros Hsettle; simpl; [done|].
  pose proof (Hsettle n ltac:(left)) as Hn.
  pose proof (processRepository_never_throws client n fork) as Hthrow.
  unfold recordOf.
  destruct (AppRepository.processRepository client n fork) as [[record|e|] log_n];
    simpl in *; [|by destruct (Hthrow e)|done].
  specialize (IH ltac:(intros; apply Hsettle; by right)).
  destruct (gather fork (map (AppRepository.processRepository client) names))
    as [rs sent].
  simpl in *. by rewrite IH.
Qed.

(** [findAll] returns the records of the listed names, each resolved on
    its own, in the order of the listing. *)
Lemma findAll_run client log names fork :
  getRepositoriesFromDockerHub client log = (Ok names, fork) ->
  (forall n, n ∈ names -> (AppRepository.processRepository client n fork).1 <> Diverge) ->
  (AppRepository.findAll client log).1 = Ok (omap (recordOf client fork) names).
Proof.
  intros Hlisting Hsettle.
  unfold AppRepository.findAll, try_catch, bind, Promise_all. rewrite Hlisting.
  pose proof (gather_processRepository client fork names Hsettle) as Hgather.
  destruct (gather fork (map (AppRepository.processRepository client) names))
    as [rs sent].
  simpl in Hgather. subst rs. simpl. by rewrite omap_id_map.
Qed.

Lemma findAll_never_throws client : never_throws (AppRepository.findAll client).
Proof. apply never_throws_try_catch. intros e log e'. discriminate. Qed.

Lemma getAllAppsController_run client log :
  getAllAppsController client log =
    (match (AppRepository.findAll client log).1 with
     | Ok apps => Ok {| status := 200; json := map toDTO apps |}
     | Throw e => Throw e
     | Diverge => Diverge
     end, (AppRepository.findAll client log).2).
Proof.
  unfold getAllAppsController, AppService.getAllApps, bind.
  by destruct (AppRepository.findAll client log) as [[apps|e|] log'].
Qed.

(** ** The record of one repository *)

(** C2, amended. For a repository whose information is there and reports
    no tag, the record has the name of the information or else the raw
    name, the description of the information or else the placeholder, the
    placeholder picture, and the raw name as its location. The description
    is the placeholder exactly when the information has none. *)
Theorem processRepository_no_tags client repoName log repoInfo log1 :
  getRepositoryInfo client repoName log = (Ok (Some repoInfo), log1) ->
  reports_no_tags repoInfo = true ->
  blank repoName = false ->
  exists app,
    AppRepository.processRepository client repoName log = (Ok (Some app), log1) /\
    name app = js_or (info_name repoInfo) repoName /\
    description app = js_or (info_description repoInfo) NO_DESCRIPTION /\
    pictureUrl app = PLACEHOLDER_PICTURE /\
    location app = AppLocation.mk repoName /\
    (truthy (info_description repoInfo) = None -> description app = NO_DESCRIPTION) /\
    (forall text, truthy (info_description repoInfo) = Some text -> description app = text).
Proof.
  intros Hinfo Hnotags Hvalid. exists (basicRecord repoInfo repoName).
  split.
  - apply processRepository_resolved.
    unfold AppRepository.resolveRepository, bind. rewrite Hinfo, Hnotags.
    by apply basicApp_run.
  - repeat split; simpl; unfold js_or.
    + by intros ->.
    + by intros text ->.
Qed.

Lemma js_or_present x y s : x = Some s -> s <> "" -> js_or x y = s.
Proof. intros -> Hs. unfold js_or. by rewrite (truthy_nonempty _ Hs). Qed.

Lemma js_or_missing x y : x = None \/ x = Some "" -> js_or x y = y.
Proof. by intros [-> | ->]. Qed.

(** C8. For a repository resolved through the whole chain, the labels are
    those of [config.Labels] in the blob, none when the blob has no config
    or the config no labels. The record has the title label as its name, or
    else the name of the information, or else the raw name; the description
    label as its description, or else the description of the information,
    or else "No description provided."; the picture label as its picture,
    or else the placeholder URL; and the raw name as its location, whatever
    the labels hold. A label or a field counts when it is there and not
    empty. *)
Theorem processRepository_labels client repoName log
    repoInfo log1 manifest log2 c dg config log3 :
  getRepositoryInfo client repoName log = (Ok (Some repoInfo), log1) ->
  reports_no_tags repoInfo = false ->
  getManifest client repoName None log1 = (Ok (Some manifest), log2) ->
  manifest_config manifest = Some c ->
  digest c = Some dg ->
  dg <> "" ->
  getConfig client repoName dg log2 = (Ok (Some config), log3) ->
  blank repoName = false ->
  let labels : gmap string string :=
    match blob_config config with
    | Some image => match Labels image with
                    | Some given => given
                    | None => ∅
                    end
    | None => ∅
    end in
  let title := labels !! "org.opencontainers.image.title" in
  let text := labels !! "org.opencontainers.image.description" in
  let picture := labels !! "com.app-store.picture-url" in
  exists app,
    AppRepository.processRepository client repoName log = (Ok (Some app), log3) /\
    (forall t, title = Some t -> t <> "" -> name app = t) /\
    (title = None \/ title = Some "" ->
     forall n, info_name repoInfo = Some n -> n <> "" -> name app = n) /\
    (title = None \/ title = Some "" ->
     info_name repoInfo = None \/ info_name repoInfo = Some "" ->
     name app = repoName) /\
    (forall d, text = Some d -> d <> "" -> description app = d) /\
    (text = None \/ text = Some "" ->
     forall d, info_description repoInfo = Some d -> d <> "" -> description app = d) /\
    (text = None \/ text = Some "" ->
     info_description repoInfo = None \/ info_description repoInfo = Some "" ->
     description app = "No description provided.") /\
    (forall u, picture = Some u -> u <> "" -> pictureUrl app = u) /\
    (picture = None \/ picture = Some "" ->
     pictureUrl app = "https://via.placeholder.com/150") /\
    location app = AppLocation.mk repoName.
Proof.
  intros Hinfo Htags Hmanifest Hconfig Hdigest Hdg Hblob Hvalid labels title text picture.
  exists (labelledRecord (labels_of config) repoInfo repoName).
  assert (Hlabels : labels_of config = labels).
  { unfold labels_of, labels. destruct (blob_config config) as [image|]; [|done].
    simpl. by destruct (Labels image). }
  split.
  - apply processRepository_resolved.
    unfold AppRepository.resolveRepository, bind.
    rewrite Hinfo, Htags, Hmanifest, Hconfig. simpl.
    rewrite Hdigest, (truthy_nonempty _ Hdg), Hblob.
    rewrite create_run, Hvalid. reflexivity.
  - rewrite Hlabels. simpl. fold title text picture.
    split; [intros t Ht Hne; by apply js_or_present|].
    split; [intros Hmiss n Hn Hne; rewrite js_or_missing by done; by apply js_or_present|].
    split; [intros Hmiss Hmiss'; by rewrite !js_or_missing|].
    split; [intros d Hd Hne; by apply js_or_present|].
    split; [intros Hmiss d Hd Hne; rewrite js_or_missing by done; by apply js_or_present|].
    split; [intros Hmiss Hmiss'; by rewrite !js_or_missing|].
    split; [intros u Hu Hne; by apply js_or_present|].
    split; [intros Hmiss; by rewrite js_or_missing | done].
Qed.

(** C1, amended. For a repository whose information is there with tags and
    whose manifest came with a config digest: when [getConfig] raises, the
    record is the one of the last resort, with the raw name and the
    "unavailable" description; the record made of the repository
    information alone is what results when [getConfig] returns no
    document. *)
Theorem processRepository_config_failure client repoName log
    repoInfo log1 manifest log2 c dg :
  getRepositoryInfo client repoName log = (Ok (Some repoInfo), log1) ->
  reports_no_tags repoInfo = false ->
  getManifest client repoName None log1 = (Ok (Some manifest), log2) ->
  manifest_config manifest = Some c ->
  truthy (digest c) = Some dg ->
  blank repoName = false ->
  (forall e log3,
     getConfig client repoName dg log2 = (Throw e, log3) ->
     AppRepository.processRepository client repoName log =
       (Ok (Some (minimalRecord repoName)), log3)) /\
  (forall log3,
     getConfig client repoName dg log2 = (Ok None, log3) ->
     AppRepository.processRepository client repoName log =
       (Ok (Some (basicRecord repoInfo repoName)), log3)).
Proof.
  intros Hinfo Htags Hmanifest Hconfig Hdigest Hvalid. split.
  - intros e log3 Hblob.
    rewrite (processRepository_caught client repoName log e log3), Hvalid; [done|].
    unfold AppRepository.resolveRepository, bind.
    rewrite Hinfo, Htags, Hmanifest, Hconfig. simpl. by rewrite Hdigest, Hblob.
  - intros log3 Hblob. apply processRepository_resolved.
    unfold AppRepository.resolveRepository, bind.
    rewrite Hinfo, Htags, Hmanifest, Hconfig. simpl. rewrite Hdigest, Hblob.
    by apply basicApp_run.
Qed.

(** C9. An error raised while a repository is resolved does not leave
    [processRepository]: the result is then the record of the last resort,
    with the raw name as name and location and the "unavailable"
    description, and it is [null] only if the raw name is blank, so that
    this record cannot be built. In the batch, the record of a name is the
    one of its own resolution: [findAll] returns, in the order of the
    listing, what each name contributes, whatever became of the others;
    with the registry client of the service, whose methods always settle,
    this holds of every listing. *)
Theorem processRepository_isolates_failures client :
  (forall repoName log e log',
     AppRepository.resolveRepository client repoName log = (Throw e, log') ->
     AppRepository.processRepository client repoName log =
       (Ok (if blank repoName then None
            else Some {| name := repoName;
                         location := AppLocation.mk repoName;
                         description := "Repository information unavailable.";
                         pictureUrl := PLACEHOLDER_PICTURE |}), log')) /\
  (forall repoName log e, (AppRepository.processRepository client repoName log).1 <> Throw e) /\
  (forall log names fork,
     getRepositoriesFromDockerHub client log = (Ok names, fork) ->
     (forall n, n ∈ names ->
        (AppRepository.processRepository client n fork).1 <> Diverge) ->
     (AppRepository.findAll client log).1 = Ok (omap (recordOf client fork) names)) /\
  (forall net fuel log names fork,
     client = dockerClient fuel net ->
     getRepositoriesFromDockerHub client log = (Ok names, fork) ->
     (AppRepository.findAll client log).1 = Ok (omap (recordOf client fork) names)).
Proof.
  split; [|split; [|split]].
  - intros repoName log e log'. apply processRepository_caught.
  - intros repoName log e. apply processRepository_never_throws.
  - apply findAll_run.
  - intros net fuel log names fork -> Hlisting.
    apply findAll_run; [exact Hlisting|].
    intros n _. apply dockerClient_settles.
Qed.

(** C3. [findAll] never ends with an error, and neither does the
    controller. When the listing raises, [findAll] returns the empty list.
    With the registry client of the service, as soon as the walk of the
    catalogue stops, [findAll] returns a list of records and the controller
    answers 200 with the list of their DTOs; the list is empty when the
    walk stopped at a failed request. *)
Theorem findAll_never_rejects client log :
  (forall e, (AppRepository.findAll client log).1 <> Throw e) /\
  (forall e, (getAllAppsController client log).1 <> Throw e) /\
  (forall e log',
     getRepositoriesFromDockerHub client log = (Throw e, log') ->
     AppRepository.findAll client log = (Ok [], log') /\
     getAllAppsController client log = (Ok {| status := 200; json := [] |}, log')) /\
  (forall net fuel pages stop log',
     client = dockerClient fuel net ->
     paging net log (Some FIRST_PAGE) pages stop log' ->
     length pages < fuel ->
     exists apps log'',
       AppRepository.findAll client log = (Ok apps, log'') /\
       getAllAppsController client log =
         (Ok {| status := 200; json := map toDTO apps |}, log'') /\
       (stop <> None -> apps = [] /\ log'' = log')).
Proof.
  split; [|split; [|split]].
  - intros e. apply findAll_never_throws.
  - intros e. rewrite getAllAppsController_run. simpl.
    pose proof (findAll_never_throws client log) as Hthrow.
    destruct (AppRepository.findAll client log).1; [discriminate| |discriminate].
    by destruct (Hthrow e0).
  - intros e log' Hlisting.
    assert (Hfind : AppRepository.findAll client log = (Ok [], log'))
      by (unfold AppRepository.findAll, try_catch, bind; by rewrite Hlisting).
    split; [done|]. by rewrite getAllAppsController_run, Hfind.
  - intros net fuel pages stop log' -> Hwalk Hfuel.
    assert (Hlisting :
      DockerRegistryClient.getRepositoriesFromDockerHub net fuel log =
        (Ok (match stop with None => listed pages | Some _ => [] end), log')).
    { unfold DockerRegistryClient.getRepositoriesFromDockerHub, try_catch, bind.
      change ("https://hub.docker.com/v2/repositories/" +:+ DOCKER_HUB_NAMESPACE +:+
              "/?page_size=100") with FIRST_PAGE.
      rewrite (while_nextUrl_paging _ _ _ _ _ _ Hwalk fuel [] Hfuel).
      by destruct stop. }
    destruct stop as [e|].
    + exists [], log'.
      assert (Hfind : AppRepository.findAll (dockerClient fuel net) log = (Ok [], log')).
      { unfold AppRepository.findAll, try_catch, bind, Promise_all. simpl.
        rewrite Hlisting. simpl. by rewrite app_nil_r. }
      split; [done|]. split; [|done].
      by rewrite getAllAppsController_run, Hfind.
    + pose proof (findAll_run (dockerClient fuel net) log _ _ Hlisting) as Hfind.
      specialize (Hfind ltac:(intros; apply dockerClient_settles)).
      destruct (AppRepository.findAll (dockerClient fuel net) log) as [r log''] eqn:Hrun.
      simpl in Hfind. subst r. eexists _, log''. split; [reflexivity|].
      split; [|done]. by rewrite getAllAppsController_run, Hrun.
Qed.

(** ** Names of the listing and their records *)

Lemma getRepositoriesFromDockerHub_namespaced net fuel log names fork :
  DockerRegistryClient.getRepositoriesFromDockerHub net fuel log = (Ok names, fork) ->
  forall n, n ∈ names -> exists r, n = DOCKER_HUB_NAMESPACE +:+ "/" +:+ r.
Proof.
  unfold DockerRegistryClient.getRepositoriesFromDockerHub, try_catch, bind.
  destruct (DockerRegistryClient.while_nextUrl net fuel [] _ log)
    as [[repositories|e|] log1]; intros [= <- _] n Hn.
  - apply list_elem_of_fmap in Hn as (repo & -> & _). by eexists.
  - by apply elem_of_nil in Hn.
Qed.

Lemma getRepositoryInfo_absent net repo log :
  has_summary net log repo = false ->
  (DockerRegistryClient.getRepositoryInfo net repo log).1 = Ok None.
Proof.
  unfold has_summary, DockerRegistryClient.getRepositoryInfo, try_catch, bind, axios_get.
  change (mkRequest _ []) with (GET (hub (repo +:+ "/"))).
  destruct (hub_repository net log _) as [data|e]; [discriminate|].
  intros _. simpl. by destruct (status_is e 404).
Qed.

Lemma getRepositoryInfo_present net repo log :
  has_summary net log repo = true ->
  exists repoInfo log',
    DockerRegistryClient.getRepositoryInfo net repo log = (Ok (Some repoInfo), log').
Proof.
  unfold has_summary, DockerRegistryClient.getRepositoryInfo, try_catch, bind, axios_get.
  change (mkRequest _ []) with (GET (hub (repo +:+ "/"))).
  destruct (hub_repository net log _) as [data|e]; [|discriminate].
  intros _. rewrite getRepositoryTags_run. by eexists _, _.
Qed.

(** With the information in hand and a name that is not blank, no path of
    [processRepository] ends in [null]. *)
Lemma processRepository_not_null client repoName log repoInfo log1 :
  getRepositoryInfo client repoName log = (Ok (Some repoInfo), log1) ->
  blank repoName = false ->
  (AppRepository.processRepository client repoName log).1 <> Ok None.
Proof.
  intros Hinfo Hvalid.
  unfold AppRepository.processRepository, try_catch.
  destruct (AppRepository.resolveRepository client repoName log)
    as [[record|e|] log'] eqn:Hres; simpl; [|by rewrite lastResort_run, Hvalid|done].
  intros [= ->]. revert Hres.
  unfold AppRepository.resolveRepository, AppRepository.basicApp, bind.
  rewrite Hinfo.
  repeat (match goal with
          | |- context [match ?x with _ => _ end] => destruct x eqn:?
          end; try discriminate).
Qed.

Lemma recordOf_absent net fuel fork n :
  has_summary net fork n = false -> recordOf (dockerClient fuel net) fork n = None.
Proof.
  intros Habsent%getRepositoryInfo_absent.
  unfold recordOf, AppRepository.processRepository, try_catch,
    AppRepository.resolveRepository, bind. simpl.
  destruct (DockerRegistryClient.getRepositoryInfo net n fork) as [r log1].
  simpl in Habsent. by subst r.
Qed.

Lemma recordOf_present net fuel fork n :
  has_summary net fork n = true -> blank n = false ->
  exists app, recordOf (dockerClient fuel net) fork n = Some app /\
              AppLocation.value (location app) = n.
Proof.
  intros (repoInfo & log1 & Hinfo)%getRepositoryInfo_present Hvalid.
  pose proof (processRepository_not_null (dockerClient fuel net) n fork _ _ Hinfo Hvalid)
    as Hnot_null.
  pose proof (dockerClient_settles fuel net n fork) as Hsettles.
  pose proof (processRepository_never_throws (dockerClient fuel net) n fork) as Hthrow.
  pose proof (processRepository_location (dockerClient fuel net) n fork) as Hloc.
  unfold recordOf.
  destruct (AppRepository.processRepository (dockerClient fuel net) n fork)
    as [[[app|]|e|] log']; simpl in *; try done.
  - exists app. split; [done|]. by eapply Hloc.
  - by destruct (Hthrow e).
Qed.

Lemma locations_of_records net fuel fork names :
  (forall n, n ∈ names -> blank n = false) ->
  map (fun app => AppLocation.value (location app))
      (omap (recordOf (dockerClient fuel net) fork) names) =
    List.filter (has_summary net fork) names.
Proof.
  induction names as [|n names IH]; intros Hvalid; [done|].
  specialize (IH ltac:(intros; apply Hvalid; by right)).
  cbn. destruct (has_summary net fork n) eqn:Hsum.
  - destruct (recordOf_present net fuel fork n Hsum (Hvalid n ltac:(left)))
      as (app & -> & Hloc).
    cbn. by rewrite Hloc, IH.
  - by rewrite (recordOf_absent net fuel fork n Hsum).
Qed.

(** C10, amended. Every name of the listing is the namespace, a slash and
    a repository name, hence is not blank: [AppLocation.create] accepts it,
    and the last resort of [processRepository] yields its record, never
    [null]. A name contributes no record exactly when its repository
    information is absent, and [findAll] returns one record for each of the
    other names, in the order of the listing, with that name as
    location. *)
Theorem findAll_records_of_listing net fuel log names fork :
  DockerRegistryClient.getRepositoriesFromDockerHub net fuel log = (Ok names, fork) ->
  let client := dockerClient fuel net in
  (forall n, n ∈ names ->
     (exists r, n = DOCKER_HUB_NAMESPACE +:+ "/" +:+ r) /\
     DOCKER_HUB_NAMESPACE <> "" /\
     blank n = false /\
     (forall l, AppLocation.create n l = (Ok (AppLocation.mk n), l)) /\
     (forall l, AppRepository.lastResort n l = (Ok (Some (minimalRecord n)), l)) /\
     ((getRepositoryInfo client n fork).1 = Ok None <-> has_summary net fork n = false) /\
     (recordOf client fork n = None <-> has_summary net fork n = false)) /\
  exists apps log',
    AppRepository.findAll client log = (Ok apps, log') /\
    apps = omap (recordOf client fork) names /\
    map (fun app => AppLocation.value (location app)) apps =
      List.filter (has_summary net fork) names.
Proof.
  intros Hlisting client.
  assert (Hvalid : forall n, n ∈ names -> blank n = false).
  { intros n Hn.
    destruct (getRepositoriesFromDockerHub_namespaced _ _ _ _ _ Hlisting n Hn) as [r ->].
    apply blank_namespaced. }
  split.
  - intros n Hn. pose proof (Hvalid n Hn) as Hn_valid.
    split; [by eapply getRepositoriesFromDockerHub_namespaced|].
    split; [done|]. split; [done|].
    split; [intros l; by rewrite create_run, Hn_valid|].
    split; [intros l; by rewrite lastResort_run, Hn_valid|].
    split; split.
    + intros Hnone. destruct (has_summary net fork n) eqn:Hsum; [|done].
      destruct (getRepositoryInfo_present _ _ _ Hsum) as (repoInfo & log1 & Hinfo).
      simpl in Hnone. by rewrite Hinfo in Hnone.
    + apply getRepositoryInfo_absent.
    + intros Hnone. destruct (has_summary net fork n) eqn:Hsum; [|done].
      destruct (recordOf_present net fuel fork n Hsum Hn_valid) as (app & Happ & _).
      unfold client in Hnone. by rewrite Happ in Hnone.
    + apply recordOf_absent.
  - pose proof (findAll_run client log names fork Hlisting
                  ltac:(intros; apply dockerClient_settles)) as Hfind.
    destruct (AppRepository.findAll client log) as [r log'].
    simpl in Hfind. subst r. eexists _, log'.
    split; [reflexivity|]. split; [reflexivity|].
    by apply locations_of_records.
Qed.

(** ** The properties on the scripted upstreams *)

Lemma demo_walk :
  paging demo [] (Some FIRST_PAGE)
    [mkPage [mkNamed "shop"] (Some (hub "abdelrahmanelbadawy1/?page=2&page_size=100"));
     mkPage [mkNamed "blog"] None]
    None
    [GET FIRST_PAGE; GET (hub "abdelrahmanelbadawy1/?page=2&page_size=100")].
Proof.
  eapply paging_next; [reflexivity | vm_compute; reflexivity |].
  eapply paging_next; [reflexivity | vm_compute; reflexivity |].
  apply paging_end. reflexivity.
Defined.

Lemma tag_unknown_walk :
  paging tag_unknown [] (Some FIRST_PAGE)
    [mkPage [mkNamed "shop"] (Some (hub "abdelrahmanelbadawy1/?page=2&page_size=100"))]
    (Some SERVER_ERROR)
    [GET FIRST_PAGE; GET (hub "abdelrahmanelbadawy1/?page=2&page_size=100")].
Proof.
  eapply paging_next; [reflexivity | vm_compute; reflexivity |].
  apply (paging_failure tag_unknown [GET FIRST_PAGE] _
           (hub "abdelrahmanelbadawy1/?page=2&page_size=100") SERVER_ERROR);
    [reflexivity | vm_compute; reflexivity].
Defined.

(** Two pages walked: both names, in page order. A failed second page: no
    name at all. *)
Lemma getRepositoriesFromDockerHub_pages_witness :
  DockerRegistryClient.getRepositoriesFromDockerHub demo 3 [] =
    (Ok [shop; blog],
     [GET FIRST_PAGE; GET (hub "abdelrahmanelbadawy1/?page=2&page_size=100")]) /\
  DockerRegistryClient.getRepositoriesFromDockerHub tag_unknown 3 [] =
    (Ok [],
     [GET FIRST_PAGE; GET (hub "abdelrahmanelbadawy1/?page=2&page_size=100")]).
Proof.
  split.
  - apply (getRepositoriesFromDockerHub_pages demo [] _ None _ 3 demo_walk).
    simpl. lia.
  - apply (getRepositoriesFromDockerHub_pages tag_unknown [] _ (Some SERVER_ERROR) _ 3
             tag_unknown_walk).
    simpl. lia.
Defined.

Lemma demo_latest :
  known_tag demo shop None [] "latest" [tags_request shop].
Proof.
  apply (tag_selected demo shop None ["v1"; "latest"] [] [tags_request shop]);
    [reflexivity | vm_compute; reflexivity | discriminate].
Defined.

(** [shop] in [demo]: 401, a token, the retry with the token, the
    document. *)
Lemma getManifest_fetch_policy_witness :
  DockerRegistryClient.getManifest demo shop None [] =
    (Ok (Some (mkManifest (Some (mkManifestConfig (Some "sha256:0a"))))),
     [tags_request shop; manifest_request shop "latest" None; token_request shop;
      manifest_request shop "latest" (Some "tk")]).
Proof.
  destruct (getManifest_fetch_policy demo shop None [] "latest" _ demo_latest)
    as (_ & _ & _ & _ & Hretry & _).
  destruct (Hretry UNAUTHORIZED) as [_ Htoken];
    [vm_compute; reflexivity | reflexivity |].
  destruct (Htoken "tk") as (_ & _ & ->);
    [vm_compute; reflexivity | discriminate |].
  vm_compute. reflexivity.
Defined.




(** [blog] has no tag: no manifest request. [shop] has ["latest"] behind
    ["v1"]: the manifest of ["latest"] is requested. *)
Lemma getManifest_without_tag_witness :
  DockerRegistryClient.getManifest demo blog None [] = (Ok None, [tags_request blog]) /\
  exists sent,
    (DockerRegistryClient.getManifest demo shop None []).2 =
      [tags_request shop] ++ manifest_request shop "latest" None :: sent.
Proof.
  split.
  - destruct (getManifest_without_tag demo blog None [] eq_refl)
      as (tags & Htags & Hnone & _).
    apply Hnone. vm_compute in Htags. by injection Htags as <-.
  - destruct (getManifest_without_tag demo shop None [] eq_refl)
      as (tags & Htags & _ & Hsome).
    vm_compute in Htags. injection Htags as <-.
    destruct (Hsome "v1" ["latest"] eq_refl) as (_ & _ & Hsent).
    exact Hsent.
Defined.

(** [blog] in [demo] reports no tag and has a description of its own. *)
Lemma processRepository_no_tags_witness :
  exists log1,
    AppRepository.processRepository (dockerClient 3 demo) blog [] =
      (Ok (Some {| name := "blog";
                   location := AppLocation.mk blog;
                   description := "A blog";
                   pictureUrl := "https://via.placeholder.com/150" |}), log1).
Proof.
  edestruct (processRepository_no_tags (dockerClient 3 demo) blog [])
    as (app & Hrun & Hname & Hdescription & Hpicture & Hlocation & _);
    [vm_compute; reflexivity | vm_compute; reflexivity | vm_compute; reflexivity |].
  eexists. rewrite Hrun. destruct app as [n l d p]. simpl in *.
  rewrite Hname, Hdescription, Hpicture, Hlocation. reflexivity.
Defined.

(** C2, as stated, fails on [blog] in [demo]: the information is there, it
    reports no tag, and the description of the record is the one of the
    information, not the placeholder. *)
Lemma no_tags_description_is_not_placeholder :
  exists repoInfo log1 app,
    getRepositoryInfo (dockerClient 3 demo) blog [] = (Ok (Some repoInfo), log1) /\
    available_tags repoInfo = Some [] /\
    reports_no_tags repoInfo = true /\
    AppRepository.processRepository (dockerClient 3 demo) blog [] = (Ok (Some app), log1) /\
    description app = "A blog" /\
    description app <> "No description provided.".
Proof.
  eexists _, _, _.
  split; [vm_compute; reflexivity|].
  split; [reflexivity|]. split; [reflexivity|].
  split; [vm_compute; reflexivity|].
  split; [reflexivity | discriminate].
Qed.

(** [shop] in [demo], resolved through the whole chain. *)
Lemma processRepository_labels_witness :
  exists log3,
    AppRepository.processRepository (dockerClient 3 demo) shop [] =
      (Ok (Some {| name := "Shop";
                   location := AppLocation.mk shop;
                   description := "Buy things";
                   pictureUrl := "https://img/shop.png" |}), log3).
Proof.
  edestruct (processRepository_labels (dockerClient 3 demo) shop [])
    as (app & Hrun & Hname & _ & _ & Hdescription & _ & _ & Hpicture & _ & Hlocation);
    [vm_compute; reflexivity | vm_compute; reflexivity | vm_compute; reflexivity
    | reflexivity | reflexivity | discriminate | vm_compute; reflexivity
    | vm_compute; reflexivity |].
  eexists. rewrite Hrun. destruct app as [n l d p]. simpl in *.
  rewrite (Hname "Shop"), (Hdescription "Buy things"),
    (Hpicture "https://img/shop.png"), Hlocation;
    first [reflexivity | discriminate | vm_compute; reflexivity].
Defined.

(** [shop] with the blob endpoint out of order. *)
Lemma processRepository_config_failure_witness :
  exists log3,
    AppRepository.processRepository (dockerClient 3 blobs_down) shop [] =
      (Ok (Some {| name := "abdelrahmanelbadawy1/shop";
                   location := AppLocation.mk shop;
                   description := "Repository information unavailable.";
                   pictureUrl := "https://via.placeholder.com/150" |}), log3).
Proof.
  edestruct (processRepository_config_failure (dockerClient 3 blobs_down) shop [])
    as [Hraised _];
    [vm_compute; reflexivity | vm_compute; reflexivity | vm_compute; reflexivity
    | reflexivity | reflexivity | vm_compute; reflexivity |].
  eexists. apply (Hraised SERVER_ERROR). vm_compute. reflexivity.
Defined.

(** C1, as stated, fails on [shop] with the blob endpoint out of order: the
    information is there with tags, the manifest comes with a digest, the
    config request fails, and the record is not the one made of the
    repository information. *)
Lemma config_failure_is_not_basic_record :
  exists repoInfo log1 manifest log2 c dg log3 app log4,
    getRepositoryInfo (dockerClient 3 blobs_down) shop [] = (Ok (Some repoInfo), log1) /\
    reports_no_tags repoInfo = false /\
    getManifest (dockerClient 3 blobs_down) shop None log1 = (Ok (Some manifest), log2) /\
    manifest_config manifest = Some c /\
    truthy (digest c) = Some dg /\
    getConfig (dockerClient 3 blobs_down) shop dg log2 = (Throw SERVER_ERROR, log3) /\
    AppRepository.processRepository (dockerClient 3 blobs_down) shop [] =
      (Ok (Some app), log4) /\
    basicRecord repoInfo shop =
      {| name := "shop"; location := AppLocation.mk shop;
         description := "A shop"; pictureUrl := "https://via.placeholder.com/150" |} /\
    app = {| name := "abdelrahmanelbadawy1/shop"; location := AppLocation.mk shop;
             description := "Repository information unavailable.";
             pictureUrl := "https://via.placeholder.com/150" |} /\
    app <> basicRecord repoInfo shop.
Proof.
  eexists _, _, _, _, _, _, _, _, _.
  split; [vm_compute; reflexivity|].
  split; [reflexivity|].
  split; [vm_compute; reflexivity|].
  split; [reflexivity|]. split; [reflexivity|].
  split; [vm_compute; reflexivity|].
  split; [vm_compute; reflexivity|].
  split; [reflexivity|]. split; [reflexivity|].
  discriminate.
Qed.

(** With the blob endpoint out of order the resolution of [shop] raises;
    [shop] gets the record of the last resort and [blog] the record it has
    in [demo]. *)
Lemma processRepository_isolates_failures_witness :
  (exists log',
     AppRepository.processRepository (dockerClient 3 blobs_down) shop [] =
       (Ok (Some {| name := "abdelrahmanelbadawy1/shop";
                    location := AppLocation.mk shop;
                    description := "Repository information unavailable.";
                    pictureUrl := "https://via.placeholder.com/150" |}), log')) /\
  (AppRepository.findAll (dockerClient 3 blobs_down) []).1 =
    Ok [ {| name := "abdelrahmanelbadawy1/shop";
            location := AppLocation.mk shop;
            description := "Repository information unavailable.";
            pictureUrl := "https://via.placeholder.com/150" |};
         {| name := "blog";
            location := AppLocation.mk blog;
            description := "A blog";
            pictureUrl := "https://via.placeholder.com/150" |} ] /\
  (AppRepository.findAll (dockerClient 3 demo) []).1 =
    Ok [ {| name := "Shop";
            location := AppLocation.mk shop;
            description := "Buy things";
            pictureUrl := "https://img/shop.png" |};
         {| name := "blog";
            location := AppLocation.mk blog;
            description := "A blog";
            pictureUrl := "https://via.placeholder.com/150" |} ].
Proof.
  destruct (processRepository_isolates_failures (dockerClient 3 blobs_down))
    as (Hcaught & _ & Hbatch & _).
  split; [|split].
  - assert (Hraised : exists log',
              AppRepository.resolveRepository (dockerClient 3 blobs_down) shop [] =
                (Throw SERVER_ERROR, log'))
      by (eexists; vm_compute; reflexivity).
    destruct Hraised as [log' Hraised]. exists log'.
    rewrite (Hcaught _ _ _ _ Hraised). reflexivity.
  - erewrite (Hbatch [] [shop; blog]);
      [| vm_compute; reflexivity | intros; apply dockerClient_settles].
    vm_compute. reflexivity.
  - vm_compute. reflexivity.
Defined.

(** A catalogue whose second page cannot be fetched: 200 and the empty
    array. The catalogue of [demo]: 200 and two DTOs. *)
Lemma findAll_never_rejects_witness :
  getAllAppsController (dockerClient 3 tag_unknown) [] =
    (Ok {| status := 200; json := [] |},
     [GET FIRST_PAGE; GET (hub "abdelrahmanelbadawy1/?page=2&page_size=100")]) /\
  (getAllAppsController (dockerClient 3 demo) []).1 =
    Ok {| status := 200;
          json := [ {| dto_name := "Shop"; dto_location := shop;
                       dto_description := "Buy things";
                       dto_pictureUrl := "https://img/shop.png" |};
                    {| dto_name := "blog"; dto_location := blog;
                       dto_description := "A blog";
                       dto_pictureUrl := "https://via.placeholder.com/150" |} ] |}.
Proof.
  split.
  - destruct (findAll_never_rejects (dockerClient 3 tag_unknown) [])
      as (_ & _ & _ & Hwalk).
    destruct (Hwalk tag_unknown 3 _ _ _ eq_refl tag_unknown_walk ltac:(simpl; lia))
      as (apps & log'' & _ & Hcontroller & Hempty).
    destruct (Hempty ltac:(discriminate)) as [-> ->]. exact Hcontroller.
  - destruct (findAll_never_rejects (dockerClient 3 demo) []) as (_ & _ & _ & Hwalk).
    destruct (Hwalk demo 3 _ _ _ eq_refl demo_walk ltac:(simpl; lia))
      as (apps & log'' & Hfind & -> & _).
    vm_compute in Hfind. injection Hfind as <- _. reflexivity.
Defined.

(** With the summary of [blog] gone, the listing has two names and the
    batch one record, the one of [shop]. *)
Lemma findAll_records_of_listing_witness :
  exists apps log',
    AppRepository.findAll (dockerClient 3 blog_gone) [] = (Ok apps, log') /\
    map (fun app => AppLocation.value (location app)) apps = [shop].
Proof.
  edestruct (findAll_records_of_listing blog_gone 3 [] [shop; blog])
    as (_ & apps & log' & Hfind & _ & Hlocations); [vm_compute; reflexivity|].
  exists apps, log'. split; [exact Hfind|].
  rewrite Hlocations. vm_compute. reflexivity.
Defined.

(** C10, as stated, fails on [demo] with the summary of [blog] gone: the
    listing has the names of [shop] and [blog], and [findAll] returns the
    record of [shop] alone. *)
Lemma listed_name_without_record :
  exists fork apps log',
    getRepositoriesFromDockerHub (dockerClient 3 blog_gone) [] =
      (Ok [shop; blog], fork) /\
    AppRepository.findAll (dockerClient 3 blog_gone) [] = (Ok apps, log') /\
    map (fun app => AppLocation.value (location app)) apps = [shop] /\
    length apps = 1 /\
    length [shop; blog] = 2.
Proof.
  eexists _, _, _.
  split; [vm_compute; reflexivity|].
  split; [vm_compute; reflexivity|].
  split; [reflexivity|]. split; reflexivity.
Qed.

(** * Further properties of the code *)

(** ** Application locations *)

Lemma drop_white_space_all s : all_white_space s = true -> drop_white_space s = "".
Proof.
  induction s as [|c s IH]; simpl; [done|].
  destruct (is_white_space c); [exact IH | discriminate].
Qed.

Lemma drop_white_space_some s :
  all_white_space s = false ->
  exists c rest, drop_white_space s = String c rest /\ is_white_space c = false.
Proof.
  induction s as [|c s IH]; simpl; [discriminate|].
  destruct (is_white_space c) eqn:Hc; [exact IH|].
  intros _. by exists c, s.
Qed.

Lemma blank_all_white_space s : blank s = all_white_space s.
Proof.
  destruct (all_white_space s) eqn:Hall.
  - unfold blank, trim. rewrite (drop_white_space_all s Hall).
    cbn. apply orb_true_r.
  - destruct (drop_white_space_some s Hall) as (c & rest & Hdrop & Hc).
    pose proof (blank_starts c rest Hc) as Hstart.
    unfold blank, trim in *. rewrite Hdrop.
    cbn [drop_white_space String.eqb orb] in Hstart. rewrite Hc in Hstart.
    rewrite Hstart. destruct s; [discriminate Hall | reflexivity].
Qed.

(** X1. [AppLocation.create] raises "App location cannot be empty." exactly
    for the strings made of white space only, the empty string among them;
    for every other string it returns a location whose value is the string
    as given, untrimmed. *)
Theorem create_accepts_exactly location log :
  AppLocation.create location log =
    (if all_white_space location
     then Throw (Error "App location cannot be empty.")
     else Ok (AppLocation.mk location), log) /\
  (forall loc log', AppLocation.create location log = (Ok loc, log') ->
     AppLocation.value loc = location /\ log' = log).
Proof.
  rewrite create_run, blank_all_white_space. split; [done|].
  destruct (all_white_space location); [discriminate|].
  by intros loc log' [= <- <-].
Qed.

(** ** The registry client, method by method *)

(** X2. [getRepositoryTags] never raises and sends one request, the tag
    listing. It returns the reported names in the order of the listing; a
    request that fails, with 404 or with anything else, gives the empty
    list, as a listing without entries does. *)
Theorem getRepositoryTags_soft_failure net repo log :
  exists tags,
    DockerRegistryClient.getRepositoryTags net repo log =
      (Ok tags, log ++ [tags_request repo]) /\
    (forall e, hub_tags net log (tags_request repo) = Failure e -> tags = []) /\
    (forall data, hub_tags net log (tags_request repo) = Answer data ->
       tags = map entry_name (tag_results data) /\
       (tag_results data = [] <-> tags = [])).
Proof.
  exists (reported_tags net log repo).
  split; [apply getRepositoryTags_run|].
  unfold reported_tags. split.
  - by intros e ->.
  - intros data ->. split; [done|].
    destruct (tag_results data); simpl; split; done.
Qed.

(** X3. [getRepositoryInfo] never raises. When the summary request fails,
    whatever the status, it returns [null] and does not ask for the tags.
    When the summary is served it asks for the tags next and returns the
    name and the description of the summary with those tags; [has_tags]
    holds exactly when the tags are not empty, so that the test of
    [findAll] for a repository without tags holds exactly when the tag
    listing came back empty. *)
Theorem getRepositoryInfo_summary_and_tags net repo log :
  let ask := summary_request repo in
  let tags := reported_tags net (log ++ [ask]) repo in
  (forall e,
     hub_repository net log ask = Failure e ->
     DockerRegistryClient.getRepositoryInfo net repo log = (Ok None, log ++ [ask])) /\
  (forall data,
     hub_repository net log ask = Answer data ->
     exists repoInfo,
       DockerRegistryClient.getRepositoryInfo net repo log =
         (Ok (Some repoInfo), log ++ [ask; tags_request repo]) /\
       info_name repoInfo = data_name data /\
       info_description repoInfo = data_description data /\
       available_tags repoInfo = Some tags /\
       has_tags repoInfo = Some (bool_decide (tags <> [])) /\
       (reports_no_tags repoInfo = true <-> tags = [])).
Proof.
  intros ask tags.
  unfold DockerRegistryClient.getRepositoryInfo, try_catch, bind, axios_get.
  change (mkRequest _ []) with ask.
  split.
  - intros e ->. simpl. by destruct (status_is e 404).
  - intros data ->. rewrite getRepositoryTags_run. fold tags.
    eexists. split; [by rewrite <- app_assoc|]. simpl.
    split; [done|]. split; [done|]. split; [done|].
    unfold reports_no_tags. simpl.
    destruct tags as [|t ts]; simpl; repeat split; try done.
Qed.

(** X4. [getConfig] first sends the blob request without credentials and
    returns its document when it is answered. After a failure other than 401
    it raises that very error, having sent nothing else. After a 401 it asks
    for a token and, with a token in hand, sends the request once more with
    [Authorization: Bearer <token>]; the outcome of that second request,
    answer or error, is its outcome. When no token can be had it raises and
    sends no second blob request. *)
Theorem getConfig_fetch_policy net repo dg log :
  let attempt := blob_request repo dg None in
  let ask := token_request repo in
  let call := DockerRegistryClient.getConfig net repo dg log in
  (forall doc,
     registry_blobs net log attempt = Answer doc -> call = (Ok doc, log ++ [attempt])) /\
  (forall e,
     registry_blobs net log attempt = Failure e -> status_is e 401 = false ->
     call = (Throw e, log ++ [attempt])) /\
  (forall e tk,
     registry_blobs net log attempt = Failure e -> status_is e 401 = true ->
     auth_token net (log ++ [attempt]) ask = Answer (mkToken (Some tk)) -> tk <> "" ->
     let retry := blob_request repo dg (Some tk) in
     call = (match registry_blobs net (log ++ [attempt; ask]) retry with
             | Answer doc => Ok doc
             | Failure e' => Throw e'
             end, log ++ [attempt; ask; retry])) /\
  (forall e,
     registry_blobs net log attempt = Failure e -> status_is e 401 = true ->
     (forall tk, auth_token net (log ++ [attempt]) ask = Answer (mkToken (Some tk)) ->
                 tk = "") ->
     exists e', call = (Throw e', log ++ [attempt; ask])).
Proof.
  intros attempt ask call.
  assert (Hrun : call =
    match registry_blobs net log attempt with
    | Answer doc => (Ok doc, log ++ [attempt])
    | Failure e =>
        if status_is e 401 then
          match DockerRegistryClient.getDockerHubAuthToken net repo (log ++ [attempt]) with
          | (Ok tk, log2) =>
              (match registry_blobs net log2 (blob_request repo dg (Some tk)) with
               | Answer doc => Ok doc
               | Failure e' => Throw e'
               end, log2 ++ [blob_request repo dg (Some tk)])
          | (Throw e', log2) => (Throw e', log2)
          | (Diverge, log2) => (Diverge, log2)
          end
        else (Throw e, log ++ [attempt])
    end).
  { unfold call, DockerRegistryClient.getConfig, try_catch at 1 2, axios_get at 1.
    change (mkRequest _ [("Accept", BLOB_ACCEPT)]) with attempt.
    destruct (registry_blobs net log attempt) as [doc|e]; [reflexivity|].
    destruct (status_is e 401); [|reflexivity].
    unfold bind.
    destruct (DockerRegistryClient.getDockerHubAuthToken net repo (log ++ [attempt]))
      as [[tk|e'|] log2]; try reflexivity.
    unfold axios_get.
    change (mkRequest _ [("Authorization", _); _]) with (blob_request repo dg (Some tk)).
    by destruct (registry_blobs net log2 _). }
  rewrite Hrun, getDockerHubAuthToken_run. fold ask.
  split; [by intros doc ->|].
  split; [by intros e -> ->|].
  split.
  - intros e tk -> -> -> Htk. simpl token. rewrite (truthy_nonempty _ Htk).
    cbv zeta. rewrite <- !app_assoc. reflexivity.
  - intros e -> -> Hnone.
    destruct (auth_token net (log ++ [attempt]) ask) as [[tok]|e'].
    + destruct (truthy tok) as [tk|] eqn:Htk.
      * apply truthy_Some in Htk as [-> Hne]. by destruct (Hne (Hnone tk eq_refl)).
      * simpl. rewrite Htk. eexists. by rewrite <- app_assoc.
    + eexists. by rewrite <- app_assoc.
Qed.

(** X5. [getDockerHubAuthToken] sends one request, to the token endpoint
    with the pull scope of the repository. It returns a token exactly when
    the endpoint answers with one that is not empty; an answer without a
    token, or with an empty one, raises "No token received from Docker Hub
    auth service", and a failed request raises its own error. *)
Theorem getDockerHubAuthToken_token net repo log :
  let ask := token_request repo in
  let call := DockerRegistryClient.getDockerHubAuthToken net repo log in
  call.2 = log ++ [ask] /\
  (forall tk,
     call.1 = Ok tk <-> auth_token net log ask = Answer (mkToken (Some tk)) /\ tk <> "") /\
  (forall data,
     auth_token net log ask = Answer data -> truthy (token data) = None ->
     call.1 = Throw (Error "No token received from Docker Hub auth service")) /\
  (forall e, auth_token net log ask = Failure e -> call.1 = Throw e).
Proof.
  intros ask call. unfold call. rewrite getDockerHubAuthToken_run. fold ask. simpl.
  split; [done|]. split; [|split].
  - intros tk. split.
    + destruct (auth_token net log ask) as [[tok]|e]; [|discriminate].
      simpl. destruct (truthy tok) as [tk'|] eqn:Htk; [|discriminate].
      intros [= ->]. by apply truthy_Some in Htk as [-> Hne].
    + intros [-> Hne]. simpl token. by rewrite (truthy_nonempty _ Hne).
  - by intros data -> ->.
  - by intros e ->.
Qed.

(** X6. [getManifestWithAnyTag] asks for the tags, returns [null] when
    there is none, and otherwise fetches the manifest of ["latest"], or of
    the first tag when ["latest"] is not reported. Unless that tag is the
    empty string, it sends the requests that [getManifest] sends when called
    without a tag and ends as it does, with the selected tag beside the
    manifest. *)
Theorem getManifestWithAnyTag_as_getManifest net repo log :
  let tags := reported_tags net log repo in
  tags = [] \/ default_tag tags <> "" ->
  DockerRegistryClient.getManifestWithAnyTag net repo log =
    with_tag (default_tag tags) (DockerRegistryClient.getManifest net repo None log).
Proof.
  intros tags Htags.
  set (listing := log ++ [tags_request repo]).
  assert (Hplain : DockerRegistryClient.getManifest net repo None log =
            if (length tags =? 0)%nat then (Ok None, listing)
            else DockerRegistryClient.requestManifest net repo (default_tag tags) listing).
  { unfold DockerRegistryClient.getManifest. cbn [truthy].
    unfold bind. rewrite getRepositoryTags_run. fold tags. fold listing.
    destruct tags; [reflexivity|]. simpl length. simpl Nat.eqb. cbv iota.
    unfold default_tag. by rewrite includes_elem_of. }
  assert (Hany : DockerRegistryClient.getManifestWithAnyTag net repo log =
            if (length tags =? 0)%nat then (Ok None, listing)
            else with_tag (default_tag tags)
                   (DockerRegistryClient.getManifest net repo
                      (Some (default_tag tags)) listing)).
  { unfold DockerRegistryClient.getManifestWithAnyTag.
    unfold bind at 1. rewrite getRepositoryTags_run. fold tags. fold listing.
    destruct tags as [|t ts]; [reflexivity|]. simpl length. simpl Nat.eqb. cbv iota zeta.
    rewrite includes_elem_of. fold (default_tag (t :: ts)). unfold bind, with_tag.
    cbn [length Nat.eqb]. cbv beta iota.
    by destruct (DockerRegistryClient.getManifest net repo _ listing)
         as [[[m|]|e|] log']. }
  rewrite Hany, Hplain.
  destruct Htags as [->|Hsome]; [reflexivity|].
  destruct tags as [|t ts]; [by destruct Hsome|]. simpl length. simpl Nat.eqb. cbv iota.
  unfold DockerRegistryClient.getManifest. by rewrite (truthy_nonempty _ Hsome).
Qed.

Lemma checkRepositoryExists_run net answered_status repo log :
  DockerRegistryClient.checkRepositoryExists net answered_status repo log =
    (Ok (match hub_repository net log (summary_request repo) with
         | Answer _ => (answered_status log (summary_request repo) =? 200)%nat
         | Failure _ => false
         end), log ++ [summary_request repo]).
Proof.
  unfold DockerRegistryClient.checkRepositoryExists, try_catch, bind, axios_get_status.
  change (mkRequest _ []) with (summary_request repo).
  destruct (hub_repository net log (summary_request repo)) as [data|e]; [reflexivity|].
  simpl. by destruct (status_is e 404).
Qed.

(** X7. [checkRepositoryExists] never raises and sends the summary request
    only. It returns [true] exactly when that request is answered with
    status 200; a failed request, with 404 or with anything else, and an
    answer with another status give [false]. *)
Theorem checkRepositoryExists_iff net answered_status repo log :
  let ask := summary_request repo in
  exists found,
    DockerRegistryClient.checkRepositoryExists net answered_status repo log =
      (Ok found, log ++ [ask]) /\
    (found = true <->
       (exists data, hub_repository net log ask = Answer data) /\
       answered_status log ask = 200).
Proof.
  intros ask. eexists. split; [apply checkRepositoryExists_run|]. fold ask.
  destruct (hub_repository net log ask) as [data|e].
  - rewrite Nat.eqb_eq. split; [intros ->; eauto | by intros [_ ->]].
  - split; [discriminate | by intros [[data [=]] _]].
Qed.

(** X8. [testRepositoryAccess] never raises. It reports a repository that
    does not exist, with no tag and the error "Repository does not exist",
    exactly when [checkRepositoryExists] says so; for a repository without
    tags it reports "No tags found"; otherwise it reports the tags of the
    listing, and an error exactly when [getManifest] raises for ["latest"]
    or else the first tag, the error being "Failed to access manifest: "
    followed by the message raised. *)
Theorem testRepositoryAccess_report net answered_status repo log :
  let ask := summary_request repo in
  let found :=
    match hub_repository net log ask with
    | Answer _ => (answered_status log ask =? 200)%nat
    | Failure _ => false
    end in
  let tags := reported_tags net (log ++ [ask]) repo in
  let fetch :=
    DockerRegistryClient.getManifest net repo (Some (default_tag tags))
      (log ++ [ask; tags_request repo]) in
  exists report log',
    DockerRegistryClient.testRepositoryAccess net answered_status repo log =
      (Ok report, log') /\
    repo_exists report = found /\
    (found = false ->
       report_tags report = [] /\
       report_error report = Some "Repository does not exist" /\
       log' = log ++ [ask]) /\
    (found = true -> tags = [] ->
       report_tags report = [] /\ report_error report = Some "No tags found" /\
       log' = log ++ [ask; tags_request repo]) /\
    (found = true -> tags <> [] ->
       report_tags report = tags /\ log' = fetch.2 /\
       (forall e, fetch.1 = Throw e ->
          report_error report = Some ("Failed to access manifest: " +:+ message e)) /\
       (forall manifest, fetch.1 = Ok manifest -> report_error report = None)) /\
    (report_error report = None -> found = true /\ tags <> [] /\ exists m, fetch.1 = Ok m).
Proof.
  intros ask found tags fetch.
  unfold DockerRegistryClient.testRepositoryAccess, try_catch, bind.
  rewrite checkRepositoryExists_run. fold ask. fold found.
  destruct found eqn:Hfound; cbn [negb].
  - rewrite getRepositoryTags_run. fold tags.
    destruct tags as [|t ts] eqn:Htags; cbn [length Nat.eqb].
    + eexists _, _. split; [reflexivity|]. simpl.
      split; [done|]. split; [done|].
      split; [by rewrite <- app_assoc|]. split; done.
    + rewrite includes_elem_of. fold (default_tag (t :: ts)).
      rewrite <- app_assoc. cbn [app]. fold fetch.
      assert (Hsettles : fetch.1 <> Diverge) by apply getManifest_settles.
      clearbody fetch. destruct fetch as [[m|e|] log']; simpl in *; [| |done].
      * eexists _, _. split; [reflexivity|]. simpl.
        split; [done|]. split; [done|]. split; [done|].
        split.
        -- intros _ _. split; [done|]. split; [done|]. split; done.
        -- intros _. split; [done|]. split; [done|]. by exists m.
      * eexists _, _. split; [reflexivity|]. simpl.
        split; [done|]. split; [done|]. split; [done|].
        split; [|done].
        intros _ _. split; [done|]. split; [done|].
        split; [by intros e' [= <-] | done].
  - eexists _, _. split; [reflexivity|]. simpl.
    split; [done|]. split; [done|]. split; [done|]. split; done.
Qed.

(** ** The aggregator: what every record looks like *)

Lemma js_or_not_empty x y : y <> "" -> js_or x y <> "".
Proof.
  intros Hy. unfold js_or. destruct (truthy x) as [s|] eqn:Hx; [|done].
  by apply truthy_Some in Hx as [_ Hs].
Qed.

Lemma not_blank_not_empty s : blank s = false -> s <> "".
Proof. intros Hblank Hempty. subst s. discriminate Hblank. Qed.

(** X9. Whatever the client answers, a record that [processRepository]
    returns has the raw repository name as its location, and that name is
    not blank; its name, its description and its picture are never the
    empty string. *)
Theorem processRepository_record_fields client repoName log app log' :
  AppRepository.processRepository client repoName log = (Ok (Some app), log') ->
  AppLocation.value (location app) = repoName /\
  all_white_space repoName = false /\
  name app <> "" /\
  description app <> "" /\
  pictureUrl app <> "".
Proof.
  assert (Hfields : forall labels repoInfo,
            all_white_space repoName = false -> repoName <> "" ->
            forall a, a = basicRecord repoInfo repoName \/
                      a = labelledRecord labels repoInfo repoName \/
                      a = minimalRecord repoName ->
            AppLocation.value (location a) = repoName /\
            all_white_space repoName = false /\
            name a <> "" /\ description a <> "" /\ pictureUrl a <> "").
  { intros labels repoInfo Hvalid Hname a Ha.
    destruct Ha as [-> | [-> | ->]]; simpl; (split; [done|]); (split; [done|]);
      repeat split; repeat apply js_or_not_empty; done. }
  unfold AppRepository.processRepository, try_catch.
  destruct (AppRepository.resolveRepository client repoName log)
    as [[record|e|] log1] eqn:Hres.
  - intros [= -> ->]. revert Hres.
    unfold AppRepository.resolveRepository, AppRepository.basicApp, bind.
    repeat (match goal with
            | |- context [match ?x with _ => _ end] => destruct x eqn:?
            end; try discriminate);
      match goal with
      | H : AppLocation.create _ _ = (Ok _, _) |- _ =>
          rewrite create_run in H; destruct (blank repoName) eqn:Hvalid;
          [discriminate|]; injection H as <- <-
      end;
      intros [= <- _];
      pose proof (not_blank_not_empty _ Hvalid) as Hname;
      rewrite blank_all_white_space in Hvalid;
      match goal with
      | r : RepositoryInfo |- _ =>
          first [ apply (Hfields ∅ r Hvalid Hname); by left
                | match goal with
                  | c : ConfigBlob |- _ =>
                      apply (Hfields (labels_of c) r Hvalid Hname); right; by left
                  end ]
      end.
  - rewrite lastResort_run. destruct (blank repoName) eqn:Hvalid; [discriminate|].
    intros [= <- _].
    pose proof (not_blank_not_empty _ Hvalid) as Hname.
    rewrite blank_all_white_space in Hvalid.
    apply (Hfields ∅ (mkInfo None None None None None None None None) Hvalid Hname).
    right. by right.
  - discriminate.
Qed.

Lemma gather_processRepository_Ok client fork names rs :
  (gather fork (map (AppRepository.processRepository client) names)).1 = Ok rs ->
  rs = map (recordOf client fork) names.
Proof.
  revert rs. induction names as [|n names IH]; intros rs; simpl.
  - by intros [= <-].
  - unfold recordOf.
    destruct (AppRepository.processRepository client n fork) as [[record|e|] log_n];
      destruct (gather fork (map (AppRepository.processRepository client) names))
        as [[l|e'|] sent]; simpl in *; try discriminate.
    intros [= <-]. by rewrite (IH l eq_refl).
Qed.

Lemma gather_processRepository_never_throws client fork names e :
  (gather fork (map (AppRepository.processRepository client) names)).1 <> Throw e.
Proof.
  revert e. induction names as [|n names IH]; intros e; simpl; [discriminate|].
  pose proof (processRepository_never_throws client n fork) as Hn.
  destruct (AppRepository.processRepository client n fork) as [[record|e'|] log_n];
    destruct (gather fork (map (AppRepository.processRepository client) names))
      as [[l|e''|] sent]; simpl in *; try discriminate.
  - by destruct (IH e'').
  - by destruct (Hn e').
  - by destruct (Hn e').
  - by destruct (Hn e').
Qed.

Lemma locations_sublist client fork names :
  map (fun app => AppLocation.value (location app))
      (omap (recordOf client fork) names) `sublist_of` names.
Proof.
  induction names as [|n names IH]; [constructor|].
  cbn. destruct (recordOf client fork n) as [app|] eqn:Hrecord; cbn.
  - assert (AppLocation.value (location app) = n) as ->.
    { unfold recordOf in Hrecord.
      destruct (AppRepository.processRepository client n fork) as [[r|e|] l] eqn:Hrun;
        simpl in Hrecord; try discriminate.
      subst r. eapply processRepository_location, Hrun. }
    by apply sublist_skip.
  - by apply sublist_cons.
Qed.

(** X10. Whatever the client answers, when [findAll] returns with the
    listing in hand, its records are those of the listed names, each
    resolved on its own, and their locations form a sublist of the listing:
    no record for a name that is not listed, the order of the listing, and
    at most one record for each entry of the listing. *)
Theorem findAll_locations_sublist client log names fork apps log' :
  getRepositoriesFromDockerHub client log = (Ok names, fork) ->
  AppRepository.findAll client log = (Ok apps, log') ->
  apps = omap (recordOf client fork) names /\
  map (fun app => AppLocation.value (location app)) apps `sublist_of` names /\
  length apps <= length names.
Proof.
  intros Hlisting Hfind.
  assert (Happs : apps = omap (recordOf client fork) names).
  { revert Hfind.
    unfold AppRepository.findAll, try_catch, bind, Promise_all. rewrite Hlisting.
    pose proof (gather_processRepository_Ok client fork names) as Hok.
    pose proof (gather_processRepository_never_throws client fork names) as Hthrow.
    destruct (gather fork (map (AppRepository.processRepository client) names))
      as [[rs|e|] sent]; simpl in *.
    - intros [= <- _]. by rewrite (Hok rs eq_refl), omap_id_map.
    - by destruct (Hthrow e).
    - discriminate. }
  split; [done|].
  pose proof (locations_sublist client fork names) as Hsub. rewrite <- Happs in Hsub.
  split; [done|].
  apply sublist_length in Hsub. by rewrite length_map in Hsub.
Qed.

(** X11. For a repository whose information is there with tags, when
    [getManifest] returns no manifest, or a manifest without a config, or
    one whose config has no digest or an empty one, the record is the one
    made of the repository information alone, and [getConfig] is not
    called. *)
Theorem processRepository_without_digest client repoName log
    repoInfo log1 fetched log2 :
  getRepositoryInfo client repoName log = (Ok (Some repoInfo), log1) ->
  reports_no_tags repoInfo = false ->
  getManifest client repoName None log1 = (Ok fetched, log2) ->
  fetched = None \/
  (exists manifest, fetched = Some manifest /\
     (manifest_config manifest = None \/
      exists c, manifest_config manifest = Some c /\ truthy (digest c) = None)) ->
  blank repoName = false ->
  AppRepository.processRepository client repoName log =
    (Ok (Some {| name := js_or (info_name repoInfo) repoName;
                 location := AppLocation.mk repoName;
                 description := js_or (info_description repoInfo)
                                  "No description provided.";
                 pictureUrl := "https://via.placeholder.com/150" |}), log2).
Proof.
  intros Hinfo Htags Hmanifest Hcases Hvalid.
  apply processRepository_resolved.
  unfold AppRepository.resolveRepository, bind. rewrite Hinfo, Htags, Hmanifest.
  destruct Hcases as [-> | (manifest & -> & [Hconfig | (c & Hconfig & Hdigest)])].
  - by apply basicApp_run.
  - rewrite Hconfig. by apply basicApp_run.
  - rewrite Hconfig. simpl. rewrite Hdigest. by apply basicApp_run.
Qed.

(** ** The aggregator on the registry client of the service *)

Lemma getRepositoryInfo_run net repo log :
  DockerRegistryClient.getRepositoryInfo net repo log =
    match hub_repository net log (summary_request repo) with
    | Answer data =>
        (Ok (Some (infoOf data (reported_tags net (log ++ [summary_request repo]) repo))),
         log ++ [summary_request repo; tags_request repo])
    | Failure _ => (Ok None, log ++ [summary_request repo])
    end.
Proof.
  unfold DockerRegistryClient.getRepositoryInfo, try_catch, bind, axios_get.
  change (mkRequest _ []) with (summary_request repo).
  destruct (hub_repository net log (summary_request repo)) as [data|e].
  - rewrite getRepositoryTags_run, <- app_assoc. reflexivity.
  - simpl. by destruct (status_is e 404).
Qed.

Lemma reports_no_tags_infoOf data tags :
  reports_no_tags (infoOf data tags) = bool_decide (tags = []).
Proof. by destruct tags. Qed.

Lemma getManifest_without_tag_run net repo log :
  DockerRegistryClient.getManifest net repo None log =
    match reported_tags net log repo with
    | [] => (Ok None, log ++ [tags_request repo])
    | tags => DockerRegistryClient.requestManifest net repo (default_tag tags)
                (log ++ [tags_request repo])
    end.
Proof.
  unfold DockerRegistryClient.getManifest. cbn [truthy].
  unfold bind. rewrite getRepositoryTags_run.
  destruct (reported_tags net log repo) as [|t ts]; [reflexivity|].
  cbn [length Nat.eqb]. cbv iota. unfold default_tag. by rewrite includes_elem_of.
Qed.

(** X12. With the registry client of the service, a repository whose
    summary request fails costs that one request and yields [null]; a
    repository whose tag listing comes back empty, or fails, costs the
    summary request and the tag listing request, yields the record made of
    the summary, and the registry and the token endpoint are not
    contacted. *)
Theorem processRepository_requests net fuel repo log :
  let ask := summary_request repo in
  let client := dockerClient fuel net in
  (forall e,
     hub_repository net log ask = Failure e ->
     AppRepository.processRepository client repo log = (Ok None, log ++ [ask])) /\
  (forall data,
     hub_repository net log ask = Answer data ->
     reported_tags net (log ++ [ask]) repo = [] ->
     blank repo = false ->
     AppRepository.processRepository client repo log =
       (Ok (Some {| name := js_or (data_name data) repo;
                    location := AppLocation.mk repo;
                    description := js_or (data_description data)
                                     "No description provided.";
                    pictureUrl := "https://via.placeholder.com/150" |}),
        log ++ [ask; tags_request repo])).
Proof.
  intros ask client. split.
  - intros e Hfail. apply processRepository_resolved.
    unfold AppRepository.resolveRepository, bind. simpl.
    rewrite getRepositoryInfo_run. fold ask. by rewrite Hfail.
  - intros data Hanswer Hnone Hvalid. apply processRepository_resolved.
    unfold AppRepository.resolveRepository, bind. simpl.
    rewrite getRepositoryInfo_run. fold ask. rewrite Hanswer, Hnone.
    rewrite reports_no_tags_infoOf. simpl. by apply basicApp_run.
Qed.

(** X13. With the registry client of the service, for a repository with a
    summary and tags, when the manifest request fails with a status other
    than 401 (a missing tag, a server error, no answer at all), the record
    is the one of the last resort: the raw name and "Repository information
    unavailable.", although the summary was served. *)
Theorem processRepository_manifest_failure net fuel repo log data e :
  let ask := summary_request repo in
  let listing := log ++ [ask; tags_request repo] in
  let tags := reported_tags net listing repo in
  hub_repository net log ask = Answer data ->
  reported_tags net (log ++ [ask]) repo <> [] ->
  tags <> [] ->
  registry_manifests net (listing ++ [tags_request repo])
    (manifest_request repo (default_tag tags) None) = Failure e ->
  status_is e 401 = false ->
  blank repo = false ->
  exists log',
    AppRepository.processRepository (dockerClient fuel net) repo log =
      (Ok (Some {| name := repo;
                   location := AppLocation.mk repo;
                   description := "Repository information unavailable.";
                   pictureUrl := "https://via.placeholder.com/150" |}), log').
Proof.
  intros ask listing tags Hanswer Htags1 Htags2 Hfail H401 Hvalid.
  assert (Hraised : exists e' log',
            AppRepository.resolveRepository (dockerClient fuel net) repo log =
              (Throw e', log')).
  { unfold AppRepository.resolveRepository, bind. simpl.
    rewrite getRepositoryInfo_run. fold ask. rewrite Hanswer.
    rewrite reports_no_tags_infoOf, bool_decide_eq_false_2 by done.
    fold listing. rewrite getManifest_without_tag_run. fold tags.
    destruct tags as [|t ts] eqn:Heq; [done|].
    rewrite requestManifest_run, Hfail, H401.
    destruct (status_is e 404); by eexists _, _. }
  destruct Hraised as (e' & log' & Hraised). exists log'.
  rewrite (processRepository_caught _ _ _ _ _ Hraised), Hvalid. reflexivity.
Qed.

(** X14. With the registry client of the service, the tags are asked for
    twice, by [getRepositoryInfo] and by [getManifest]. When the first
    listing reports tags and the second none, no manifest is requested and
    the record is the one made of the summary. *)
Theorem processRepository_tags_vanish net fuel repo log data :
  let ask := summary_request repo in
  let listing := log ++ [ask; tags_request repo] in
  hub_repository net log ask = Answer data ->
  reported_tags net (log ++ [ask]) repo <> [] ->
  reported_tags net listing repo = [] ->
  blank repo = false ->
  AppRepository.processRepository (dockerClient fuel net) repo log =
    (Ok (Some {| name := js_or (data_name data) repo;
                 location := AppLocation.mk repo;
                 description := js_or (data_description data)
                                  "No description provided.";
                 pictureUrl := "https://via.placeholder.com/150" |}),
     listing ++ [tags_request repo]).
Proof.
  intros ask listing Hanswer Htags1 Htags2 Hvalid.
  apply processRepository_resolved.
  unfold AppRepository.resolveRepository, bind. simpl.
  rewrite getRepositoryInfo_run. fold ask. rewrite Hanswer.
  rewrite reports_no_tags_infoOf, bool_decide_eq_false_2 by done.
  fold listing. rewrite getManifest_without_tag_run, Htags2.
  by apply basicApp_run.
Qed.

(** ** The listing and its loop *)

Lemma while_nextUrl_more_fuel net fuel :
  forall acc cursor log,
    (DockerRegistryClient.while_nextUrl net fuel acc cursor log).1 <> Diverge ->
    forall fuel', fuel <= fuel' ->
      DockerRegistryClient.while_nextUrl net fuel' acc cursor log =
      DockerRegistryClient.while_nextUrl net fuel acc cursor log.
Proof.
  induction fuel as [|fuel IH]; intros acc cursor log Hsettles fuel' Hle.
  - destruct fuel'; simpl in *; destruct (truthy cursor); try done.
  - destruct fuel' as [|fuel']; [lia|]. simpl in *.
    destruct (truthy cursor) as [u|]; [|done].
    unfold bind, axios_get in *.
    destruct (hub_repositories net log (mkRequest u [])) as [data|e]; [|done].
    apply IH; [done | lia].
Qed.

(** X15. [getRepositoriesFromDockerHub] never raises: an error of a page
    request ends in the empty list. Its loop has no bound of its own; once
    the walk of the catalogue has stopped, walking on cannot change the
    result, and every name it returns is the namespace, a slash and the
    name of an entry. *)
Theorem getRepositoriesFromDockerHub_settled net log :
  (forall fuel e,
     (DockerRegistryClient.getRepositoriesFromDockerHub net fuel log).1 <> Throw e) /\
  (forall fuel fuel',
     (DockerRegistryClient.getRepositoriesFromDockerHub net fuel log).1 <> Diverge ->
     fuel <= fuel' ->
     DockerRegistryClient.getRepositoriesFromDockerHub net fuel' log =
     DockerRegistryClient.getRepositoriesFromDockerHub net fuel log) /\
  (forall fuel names fork n,
     DockerRegistryClient.getRepositoriesFromDockerHub net fuel log = (Ok names, fork) ->
     n ∈ names ->
     exists r, n = DOCKER_HUB_NAMESPACE +:+ "/" +:+ r).
Proof.
  split; [|split].
  - intros fuel e. apply never_throws_try_catch. intros e' log' e''. discriminate.
  - intros fuel fuel' Hsettles Hle.
    unfold DockerRegistryClient.getRepositoriesFromDockerHub, try_catch, bind in *.
    rewrite (while_nextUrl_more_fuel net fuel _ _ _) with (fuel' := fuel'); [done| |done].
    by destruct (DockerRegistryClient.while_nextUrl net fuel [] _ log) as [[l|e|] log'].
  - intros fuel names fork n Hrun. by eapply getRepositoriesFromDockerHub_namespaced.
Qed.

Lemma while_nextUrl_endless net :
  (forall log request, exists page,
     hub_repositories net log request = Answer page /\ truthy (next page) <> None) ->
  forall fuel acc cursor log,
    truthy cursor <> None ->
    (DockerRegistryClient.while_nextUrl net fuel acc cursor log).1 = Diverge.
Proof.
  intros Hendless. induction fuel as [|fuel IH]; intros acc cursor log Hcursor; simpl.
  - by destruct (truthy cursor).
  - destruct (truthy cursor) as [u|]; [|done].
    unfold bind, axios_get.
    destruct (Hendless log (mkRequest u [])) as (page & -> & Hnext).
    by apply IH.
Qed.

(** X16. Nothing stops the loop of [getRepositoriesFromDockerHub] but a
    falsy cursor or a failed request: with a catalogue that answers every
    page request with a page that names a next one, the listing does not
    return, however long it walks, and neither do [findAll] and the
    controller. *)
Theorem getRepositoriesFromDockerHub_endless net fuel log :
  (forall log request, exists page,
     hub_repositories net log request = Answer page /\ truthy (next page) <> None) ->
  (DockerRegistryClient.getRepositoriesFromDockerHub net fuel log).1 = Diverge /\
  (AppRepository.findAll (dockerClient fuel net) log).1 = Diverge /\
  (getAllAppsController (dockerClient fuel net) log).1 = Diverge.
Proof.
  intros Hendless.
  assert (Hlisting :
    (DockerRegistryClient.getRepositoriesFromDockerHub net fuel log).1 = Diverge).
  { unfold DockerRegistryClient.getRepositoriesFromDockerHub, try_catch, bind.
    pose proof (while_nextUrl_endless net Hendless fuel []
                  (Some ("https://hub.docker.com/v2/repositories/" +:+
                         DOCKER_HUB_NAMESPACE +:+ "/?page_size=100")) log
                  ltac:(discriminate)) as Hloop.
    destruct (DockerRegistryClient.while_nextUrl net fuel [] _ log) as [r log'].
    simpl in Hloop. by subst r. }
  assert (Hfind : (AppRepository.findAll (dockerClient fuel net) log).1 = Diverge).
  { unfold AppRepository.findAll, try_catch, bind. simpl.
    destruct (DockerRegistryClient.getRepositoriesFromDockerHub net fuel log) as [r log'].
    simpl in Hlisting. by subst r. }
  split; [done|]. split; [done|].
  rewrite getAllAppsController_run. simpl. by rewrite Hfind.
Qed.

(** ** The further properties on the scripted upstreams *)

(** The tags of [shop] in [demo]; a repository that [demo] does not know. *)
Lemma getRepositoryTags_soft_failure_witness :
  DockerRegistryClient.getRepositoryTags demo shop [] =
    (Ok ["v1"; "latest"], [tags_request shop]) /\
  DockerRegistryClient.getRepositoryTags demo "nobody/nothing" [] =
    (Ok [], [tags_request "nobody/nothing"]).
Proof.
  split.
  - destruct (getRepositoryTags_soft_failure demo shop []) as (tags & Hrun & _ & Hanswer).
    destruct (Hanswer (mkTags [mkNamed "v1"; mkNamed "latest"])) as [Htags _];
      [vm_compute; reflexivity|].
    rewrite Hrun, Htags. reflexivity.
  - destruct (getRepositoryTags_soft_failure demo "nobody/nothing" [])
      as (tags & Hrun & Hfailure & _).
    rewrite Hrun, (Hfailure NOT_FOUND); [reflexivity | vm_compute; reflexivity].
Defined.

(** [blog] in [demo]: a summary, no tag. [blog] with its summary gone. *)
Lemma getRepositoryInfo_summary_and_tags_witness :
  (exists repoInfo,
     DockerRegistryClient.getRepositoryInfo demo blog [] =
       (Ok (Some repoInfo), [summary_request blog; tags_request blog]) /\
     info_description repoInfo = Some "A blog" /\
     reports_no_tags repoInfo = true) /\
  DockerRegistryClient.getRepositoryInfo blog_gone blog [] =
    (Ok None, [summary_request blog]).
Proof.
  split.
  - destruct (getRepositoryInfo_summary_and_tags demo blog []) as [_ Hanswer].
    destruct (Hanswer (summary "blog" "A blog"))
      as (repoInfo & Hrun & _ & Hdescription & _ & _ & Hno_tags);
      [vm_compute; reflexivity|].
    exists repoInfo. split; [exact Hrun|]. split; [exact Hdescription|].
    apply Hno_tags. vm_compute. reflexivity.
  - destruct (getRepositoryInfo_summary_and_tags blog_gone blog []) as [Hfailure _].
    apply (Hfailure NOT_FOUND). vm_compute. reflexivity.
Defined.

(** The blob of [shop] in [demo], after a 401 and a token; the blob
    endpoint out of order. *)
Lemma getConfig_fetch_policy_witness :
  (exists config,
     DockerRegistryClient.getConfig demo shop "sha256:0a" [] =
       (Ok (Some config),
        [blob_request shop "sha256:0a" None; token_request shop;
         blob_request shop "sha256:0a" (Some "tk")])) /\
  DockerRegistryClient.getConfig blobs_down shop "sha256:0a" [] =
    (Throw SERVER_ERROR, [blob_request shop "sha256:0a" None]).
Proof.
  split.
  - destruct (getConfig_fetch_policy demo shop "sha256:0a" []) as (_ & _ & Hretry & _).
    rewrite (Hretry UNAUTHORIZED "tk");
      [| vm_compute; reflexivity | reflexivity | vm_compute; reflexivity | discriminate].
    eexists. vm_compute. reflexivity.
  - destruct (getConfig_fetch_policy blobs_down shop "sha256:0a" []) as (_ & Hother & _).
    apply (Hother SERVER_ERROR); reflexivity.
Defined.

(** A token for [shop]; a token endpoint that answers without one. *)
Lemma getDockerHubAuthToken_token_witness :
  (DockerRegistryClient.getDockerHubAuthToken demo shop []).1 = Ok "tk" /\
  (DockerRegistryClient.getDockerHubAuthToken no_token shop []).1 =
    Throw (Error "No token received from Docker Hub auth service").
Proof.
  split.
  - destruct (getDockerHubAuthToken_token demo shop []) as (_ & Htoken & _).
    apply Htoken. split; [vm_compute; reflexivity | discriminate].
  - destruct (getDockerHubAuthToken_token no_token shop []) as (_ & _ & Hnone & _).
    apply (Hnone (mkToken None)); reflexivity.
Defined.

(** [shop] in [demo]: the manifest of ["latest"], and the tag beside it. *)
Lemma getManifestWithAnyTag_as_getManifest_witness :
  DockerRegistryClient.getManifestWithAnyTag demo shop [] =
    (Ok (Some (mkManifest (Some (mkManifestConfig (Some "sha256:0a"))), "latest")),
     [tags_request shop; manifest_request shop "latest" None; token_request shop;
      manifest_request shop "latest" (Some "tk")]).
Proof.
  rewrite (getManifestWithAnyTag_as_getManifest demo shop []);
    [| right; vm_compute; discriminate].
  vm_compute. reflexivity.
Defined.

(** A summary served with 200, and one served with 204. *)
Lemma checkRepositoryExists_iff_witness :
  DockerRegistryClient.checkRepositoryExists demo status_200 shop [] =
    (Ok true, [summary_request shop]) /\
  DockerRegistryClient.checkRepositoryExists demo status_204 shop [] =
    (Ok false, [summary_request shop]).
Proof.
  split.
  - destruct (checkRepositoryExists_iff demo status_200 shop []) as (found & Hrun & Hiff).
    rewrite Hrun. destruct Hiff as [_ ->]; [reflexivity|].
    split; [eexists; vm_compute; reflexivity | reflexivity].
  - destruct (checkRepositoryExists_iff demo status_204 shop []) as (found & Hrun & Hiff).
    rewrite Hrun. destruct found; [|reflexivity].
    destruct Hiff as [Hyes _]. destruct (Hyes eq_refl) as [_ Hstatus].
    discriminate Hstatus.
Defined.

(** [shop] with the registry out of order: it exists, it has tags, and the
    manifest cannot be had. *)
Lemma testRepositoryAccess_report_witness :
  exists report log',
    DockerRegistryClient.testRepositoryAccess registry_down status_200 shop [] =
      (Ok report, log') /\
    repo_exists report = true /\
    report_tags report = ["v1"; "latest"] /\
    report_error report =
      Some "Failed to access manifest: Request failed with status code 500".
Proof.
  destruct (testRepositoryAccess_report registry_down status_200 shop [])
    as (report & log' & Hrun & Hexists & _ & _ & Htags & _).
  exists report, log'. split; [exact Hrun|].
  split; [rewrite Hexists; vm_compute; reflexivity|].
  destruct Htags as (Hreported & _ & Herror & _);
    [vm_compute; reflexivity | vm_compute; discriminate |].
  split; [rewrite Hreported; vm_compute; reflexivity|].
  rewrite (Herror SERVER_ERROR); [reflexivity | vm_compute; reflexivity].
Defined.

Lemma demo_shop_record :
  exists app log',
    AppRepository.processRepository (dockerClient 3 demo) shop [] = (Ok (Some app), log').
Proof. eexists _, _. vm_compute. reflexivity. Defined.

(** The record of [shop] in [demo]. *)
Lemma processRepository_record_fields_witness :
  exists app log',
    AppRepository.processRepository (dockerClient 3 demo) shop [] = (Ok (Some app), log') /\
    AppLocation.value (location app) = shop /\
    name app <> "" /\ description app <> "" /\ pictureUrl app <> "".
Proof.
  destruct demo_shop_record as (app & log' & Hrun). exists app, log'.
  split; [exact Hrun|].
  destruct (processRepository_record_fields _ _ _ _ _ Hrun) as (Hl & _ & Hn & Hd & Hp).
  repeat split; assumption.
Defined.

Lemma blog_gone_batch :
  exists fork apps log',
    getRepositoriesFromDockerHub (dockerClient 3 blog_gone) [] = (Ok [shop; blog], fork) /\
    AppRepository.findAll (dockerClient 3 blog_gone) [] = (Ok apps, log').
Proof. eexists _, _, _. split; vm_compute; reflexivity. Defined.

(** With the summary of [blog] gone: the locations of the batch within the
    listing. *)
Lemma findAll_locations_sublist_witness :
  exists apps log',
    AppRepository.findAll (dockerClient 3 blog_gone) [] = (Ok apps, log') /\
    map (fun app => AppLocation.value (location app)) apps `sublist_of` [shop; blog] /\
    length apps <= 2.
Proof.
  destruct blog_gone_batch as (fork & apps & log' & Hlisting & Hfind).
  exists apps, log'. split; [exact Hfind|].
  destruct (findAll_locations_sublist _ _ _ _ _ _ Hlisting Hfind) as (_ & Hsub & Hlen).
  split; assumption.
Defined.

(** [shop] with a manifest that names no config. *)
Lemma processRepository_without_digest_witness :
  exists log2,
    AppRepository.processRepository (dockerClient 3 no_digest) shop [] =
      (Ok (Some {| name := "shop";
                   location := AppLocation.mk shop;
                   description := "A shop";
                   pictureUrl := "https://via.placeholder.com/150" |}), log2).
Proof.
  eexists. etransitivity.
  - eapply (processRepository_without_digest (dockerClient 3 no_digest) shop []);
      [ vm_compute; reflexivity
      | vm_compute; reflexivity
      | vm_compute; reflexivity
      | right; eexists; split; [reflexivity | left; reflexivity]
      | vm_compute; reflexivity ].
  - vm_compute. reflexivity.
Defined.

(** [blog] with its summary gone: one request. [blog] in [demo]: two. *)
Lemma processRepository_requests_witness :
  AppRepository.processRepository (dockerClient 3 blog_gone) blog [] =
    (Ok None, [summary_request blog]) /\
  AppRepository.processRepository (dockerClient 3 demo) blog [] =
    (Ok (Some {| name := "blog";
                 location := AppLocation.mk blog;
                 description := "A blog";
                 pictureUrl := "https://via.placeholder.com/150" |}),
     [summary_request blog; tags_request blog]).
Proof.
  split.
  - destruct (processRepository_requests blog_gone 3 blog []) as [Hfailure _].
    apply (Hfailure NOT_FOUND). vm_compute. reflexivity.
  - destruct (processRepository_requests demo 3 blog []) as [_ Hno_tags].
    apply (Hno_tags (summary "blog" "A blog")); vm_compute; reflexivity.
Defined.

(** [shop] with the registry out of order. *)
Lemma processRepository_manifest_failure_witness :
  exists log',
    AppRepository.processRepository (dockerClient 3 registry_down) shop [] =
      (Ok (Some {| name := "abdelrahmanelbadawy1/shop";
                   location := AppLocation.mk shop;
                   description := "Repository information unavailable.";
                   pictureUrl := "https://via.placeholder.com/150" |}), log').
Proof.
  apply (processRepository_manifest_failure registry_down 3 shop []
           (summary "shop" "A shop") SERVER_ERROR);
    try (vm_compute; reflexivity); vm_compute; discriminate.
Defined.

(** [shop] with tags that are gone at the second listing. *)
Lemma processRepository_tags_vanish_witness :
  AppRepository.processRepository (dockerClient 3 vanishing_tags) shop [] =
    (Ok (Some {| name := "shop";
                 location := AppLocation.mk shop;
                 description := "A shop";
                 pictureUrl := "https://via.placeholder.com/150" |}),
     [summary_request shop; tags_request shop; tags_request shop]).
Proof.
  apply (processRepository_tags_vanish vanishing_tags 3 shop [] (summary "shop" "A shop"));
    try (vm_compute; reflexivity); vm_compute; discriminate.
Defined.

(** The catalogue of [demo] is walked in two steps; twenty are as good. *)
Lemma getRepositoriesFromDockerHub_settled_witness :
  DockerRegistryClient.getRepositoriesFromDockerHub demo 20 [] =
  DockerRegistryClient.getRepositoriesFromDockerHub demo 2 [].
Proof.
  destruct (getRepositoriesFromDockerHub_settled demo []) as (_ & Hmore & _).
  apply Hmore; [vm_compute; discriminate | lia].
Defined.

(** A catalogue that comes back to its first page. *)
Lemma getRepositoriesFromDockerHub_endless_witness :
  (AppRepository.findAll (dockerClient 1000 looping) []).1 = Diverge.
Proof.
  destruct (getRepositoriesFromDockerHub_endless looping 1000 []) as (_ & Hfind & _).
  - intros log request. eexists. split; [reflexivity | discriminate].
  - exact Hfind.
Defined.
